(** * Conversation memory and reply sanitisation of [api/generate.js]

    A shallow embedding of the request handler of [src/api/generate.js]:
    the per-user memory files ([loadMemory], [saveMemory]), the reply
    pipeline of [handler] (banned-phrase removal, emoji guarantee) and the
    HTTP-level validation, followed by the properties checked of them. *)

From Stdlib Require Import ZArith NArith QArith Qround List Bool Lia.
From Stdlib Require Import Strings.String Strings.Ascii Numbers.DecimalString.
From stdpp Require Import gmap list.

Import ListNotations.
Local Open Scope N_scope.
Local Open Scope list_scope.

(** ** JavaScript strings

    A JavaScript string is a sequence of UTF-16 code units.  The handler's
    regular expressions carry no [u] flag, so they match code unit by code
    unit; the embedding therefore keeps code units, not code points. *)

Module JsString.

Abbreviation jsstring := (list N).

(** Code points of a UTF-8 byte sequence (the encoding of the source
    file); a malformed sequence decodes to U+FFFD. *)
Fixpoint utf8_points (fuel : nat) (bs : list N) : list N :=
  match fuel with
  | O => []
  | S fuel' =>
      match bs with
      | [] => []
      | b0 :: r0 =>
          if b0 <? 128 then b0 :: utf8_points fuel' r0
          else if (192 <=? b0) && (b0 <? 224) then
            match r0 with
            | b1 :: r1 =>
                ((b0 - 192) * 64 + (b1 - 128)) :: utf8_points fuel' r1
            | _ => [65533]
            end
          else if (224 <=? b0) && (b0 <? 240) then
            match r0 with
            | b1 :: b2 :: r2 =>
                ((b0 - 224) * 4096 + (b1 - 128) * 64 + (b2 - 128))
                  :: utf8_points fuel' r2
            | _ => [65533]
            end
          else if 240 <=? b0 then
            match r0 with
            | b1 :: b2 :: b3 :: r3 =>
                ((b0 - 240) * 262144 + (b1 - 128) * 4096
                 + (b2 - 128) * 64 + (b3 - 128))
                  :: utf8_points fuel' r3
            | _ => [65533]
            end
          else 65533 :: utf8_points fuel' r0
      end
  end.

(** UTF-16 code units of one code point: astral code points become a
    surrogate pair. *)
Definition utf16_units (cp : N) : list N :=
  if cp <? 65536 then [cp]
  else [55296 + (cp - 65536) / 1024; 56320 + (cp - 65536) mod 1024].

Definition bytes_of (s : string) : list N :=
  map N_of_ascii (list_ascii_of_string s).

(** The JavaScript string denoted by a literal of the source text. *)
Definition js (s : string) : jsstring :=
  let bs := bytes_of s in
  flat_map utf16_units (utf8_points (List.length bs) bs).

Definition streq (a b : jsstring) : bool := bool_decide (a = b).

End JsString.
Import JsString.

(** ** JavaScript values

    The values the handler meets come from JSON (the request body and the
    memory files), so a value is a JSON value; [undefined] is the absence
    of a value ([None]).  An object lists its own properties in
    enumeration order.  [JNum z] is the number with integer value [z]
    (below 2^53 in magnitude, where JavaScript prints plain digits); the
    handler never computes with numbers. *)

Module Js.

#[warnings="-register-all"]
Inductive JsValue : Type :=
| JNull
| JBool (b : bool)
| JNum (z : Z)
| JStr (s : jsstring)
| JArr (items : list JsValue)
| JObj (props : list (jsstring * JsValue)).

(** ToBoolean, as [!x] and [if (x)] use it. *)
Definition truthy (x : option JsValue) : bool :=
  match x with
  | None => false
  | Some JNull => false
  | Some (JBool b) => b
  | Some (JNum z) => negb (z =? 0)%Z
  | Some (JStr s) => negb (streq s [])
  | Some (JArr _) => true
  | Some (JObj _) => true
  end.

(** [typeof x === "string"]. *)
Definition isString (x : option JsValue) : bool :=
  match x with
  | Some (JStr _) => true
  | _ => false
  end.

Definition typeOf (v : JsValue) : jsstring :=
  match v with
  | JNull => js "object"
  | JBool _ => js "boolean"
  | JNum _ => js "number"
  | JStr _ => js "string"
  | JArr _ => js "object"
  | JObj _ => js "object"
  end.

Fixpoint lookupProp (k : jsstring) (props : list (jsstring * JsValue))
  : option JsValue :=
  match props with
  | [] => None
  | (k', v) :: rest => if streq k k' then Some v else lookupProp k rest
  end.

(** [o[k] = v] on the own properties: an existing key keeps its place, a
    new key goes last. *)
Fixpoint assignProp (k : jsstring) (v : JsValue)
  (props : list (jsstring * JsValue)) : list (jsstring * JsValue) :=
  match props with
  | [] => [(k, v)]
  | (k', v') :: rest =>
      if streq k k' then (k, v) :: rest else (k', v') :: assignProp k v rest
  end.

(** [x.k] for the keys the handler reads ([prompt], [project], [userId],
    [conversation], [lastProject], [lastTask]): none of them is inherited
    from a prototype, so only an object's own property answers. *)
Definition getProp (k : jsstring) (x : JsValue) : option JsValue :=
  match x with
  | JObj props => lookupProp k props
  | _ => None
  end.

Definition decimal (z : Z) : jsstring :=
  bytes_of (NilZero.string_of_int (Z.to_int z)).

Definition joinWith (sep : jsstring) (parts : list jsstring) : jsstring :=
  match parts with
  | [] => []
  | p :: rest => p ++ flat_map (fun q => sep ++ q) rest
  end.

Fixpoint sequenceOpt {A : Type} (l : list (option A)) : option (list A) :=
  match l with
  | [] => Some []
  | None :: _ => None
  | Some a :: rest =>
      match sequenceOpt rest with
      | Some r => Some (a :: r)
      | None => None
      end
  end.

(** ToString, as a template literal applies it; [None] is the TypeError
    of an object that cannot be converted to a primitive (an own,
    hence non-callable, [toString] property shadows the inherited one and
    the inherited [valueOf] returns the object itself). *)
Fixpoint toStr (v : JsValue) : option jsstring :=
  match v with
  | JNull => Some (js "null")
  | JBool true => Some (js "true")
  | JBool false => Some (js "false")
  | JNum z => Some (decimal z)
  | JStr s => Some s
  | JArr items =>
      match
        sequenceOpt
          (map (fun e => match e with
                         | JNull => Some []
                         | _ => toStr e
                         end) items)
      with
      | Some parts => Some (joinWith (js ",") parts)
      | None => None
      end
  | JObj props =>
      match lookupProp (js "toString") props with
      | Some _ => None
      | None => Some (js "[object Object]")
      end
  end.

(** An object literal as [JSON.stringify] (hence [res.json]) shows it: a
    property whose value is [undefined] is left out. *)
Fixpoint objectOf (fields : list (jsstring * option JsValue))
  : list (jsstring * JsValue) :=
  match fields with
  | [] => []
  | (k, Some v) :: rest => (k, v) :: objectOf rest
  | (_, None) :: rest => objectOf rest
  end.

End Js.
Import Js.

(** ** Regular expressions of the handler

    The banned patterns are literal phrases with the flags [g] and [i];
    the emoji test is one character class.  Neither has the [u] flag. *)

Module Regex.

(** Canonicalize of a case-insensitive pattern without [u]: a code unit
    is compared by its upper-case form, and a unit outside ASCII is never
    mapped into ASCII.  The patterns are ASCII, so upper-casing the ASCII
    letters decides every comparison with them. *)
Definition canonicalize (c : N) : N :=
  if (97 <=? c) && (c <=? 122) then c - 32 else c.

(** The pattern matches at the start of the text. *)
Fixpoint matchesAt (pat text : jsstring) : bool :=
  match pat, text with
  | [], _ => true
  | _ :: _, [] => false
  | p :: pat', c :: text' =>
      (canonicalize p =? canonicalize c) && matchesAt pat' text'
  end.

(** [/pat/i.test(text)]: the pattern matches somewhere. *)
Fixpoint search (pat text : jsstring) : bool :=
  matchesAt pat text ||
  match text with
  | [] => false
  | _ :: text' => search pat text'
  end.

(** [text.replace(/pat/gi, "")] for a non-empty literal [pat]: one scan
    from the left; a match is dropped and the scan resumes behind it.
    [skip] counts the units of the current match still to drop. *)
Fixpoint replaceScan (pat : jsstring) (skip : nat) (text : jsstring)
  : jsstring :=
  match text with
  | [] => []
  | c :: text' =>
      match skip with
      | S k => replaceScan pat k text'
      | O =>
          if matchesAt pat text
          then replaceScan pat (Nat.pred (List.length pat)) text'
          else c :: replaceScan pat 0 text'
      end
  end.

Definition replaceAll (pat text : jsstring) : jsstring :=
  replaceScan pat 0 text.

(** [/[...]/.test(text)] for a class of single code units: some code unit
    of the text is one of the class. *)
Definition testClass (class text : jsstring) : bool :=
  existsb (fun c => existsb (N.eqb c) class) text.

(** [text.includes(part)], exact. *)
Fixpoint hasPrefix (part text : jsstring) : bool :=
  match part, text with
  | [], _ => true
  | _ :: _, [] => false
  | p :: part', c :: text' => (p =? c) && hasPrefix part' text'
  end.

Fixpoint includes (part text : jsstring) : bool :=
  hasPrefix part text ||
  match text with
  | [] => false
  | _ :: text' => includes part text'
  end.

End Regex.
Import Regex.

(** ** [path.join] on POSIX *)

Module Path.

Definition SLASH : N := 47.

(** The pieces of a string between its slashes. *)
Fixpoint splitSlash (cur : jsstring) (s : jsstring) : list jsstring :=
  match s with
  | [] => [rev cur]
  | c :: s' =>
      if c =? SLASH then rev cur :: splitSlash [] s'
      else splitSlash (c :: cur) s'
  end.

(** [normalizeString]: empty and [.] segments vanish, [..] removes the
    segment before it; above the root it is dropped, or kept when the path
    is relative.  [res] is the result so far, last segment first. *)
Fixpoint normalizeSegments (allowAboveRoot : bool) (res : list jsstring)
  (segs : list jsstring) : list jsstring :=
  match segs with
  | [] => rev res
  | seg :: rest =>
      if streq seg [] || streq seg (js ".") then
        normalizeSegments allowAboveRoot res rest
      else if streq seg (js "..") then
        match res with
        | top :: res' =>
            if streq top (js "..")
            then normalizeSegments allowAboveRoot
                   (if allowAboveRoot then seg :: res else res) rest
            else normalizeSegments allowAboveRoot res' rest
        | [] =>
            normalizeSegments allowAboveRoot
              (if allowAboveRoot then [seg] else []) rest
        end
      else normalizeSegments allowAboveRoot (seg :: res) rest
  end.

Definition endsWithSlash (p : jsstring) : bool :=
  match rev p with
  | c :: _ => c =? SLASH
  | [] => false
  end.

(** [path.posix.normalize]. *)
Definition normalize (p : jsstring) : jsstring :=
  match p with
  | [] => js "."
  | c :: _ =>
      let isAbsolute := c =? SLASH in
      let body :=
        joinWith [SLASH]
          (normalizeSegments (negb isAbsolute) [] (splitSlash [] p)) in
      match body with
      | [] => if isAbsolute then [SLASH]
              else if endsWithSlash p then js "./" else js "."
      | _ =>
          let body' := if endsWithSlash p then body ++ [SLASH] else body in
          if isAbsolute then SLASH :: body' else body'
      end
  end.

(** [path.join(a, b)]: the non-empty arguments joined by a slash, then
    normalised. *)
Definition join (a b : jsstring) : jsstring :=
  match a, b with
  | [], [] => js "."
  | [], _ => normalize b
  | _, [] => normalize a
  | _, _ => normalize (a ++ SLASH :: b)
  end.

(** The directory a path names an entry of: the path without its last
    segment. *)
Definition parent (p : jsstring) : jsstring :=
  SLASH :: joinWith [SLASH]
             (removelast (normalizeSegments false [] (splitSlash [] p))).

End Path.

(** ** The file system and the effects of the handler

    A file is kept by what [JSON.parse] makes of its text: [Json v] is a
    text that parses to [v] (so the text [JSON.stringify] writes for [v]
    is [Json v]), [Garbled] a text that [JSON.parse] rejects.  Nodes are
    keyed by their normalised absolute path.  [permits] says for which
    paths the system lets this process create or replace a file
    (permissions, quota, name length); a write also needs the directory
    of the file to exist. *)

Module Sys.

Inductive Content : Type :=
| Garbled
| Json (v : JsValue).

Inductive Node : Type :=
| Dir
| File (c : Content).

Inductive Event : Type :=
| ExistsSync (path : jsstring)
| ReadFileSync (path : jsstring)
| WriteFileSync (path : jsstring) (v : JsValue)
| ConsoleError (what err : jsstring)
| CreateCompletion (messages : list JsValue).

Record World : Type := mkWorld {
  files : gmap jsstring Node;
  permits : jsstring -> bool;
  events : list Event
}.

Inductive Outcome (A : Type) : Type :=
| Returned (a : A)
| Thrown (message : jsstring).
Arguments Returned {A} a.
Arguments Thrown {A} message.

(** A computation that reads and changes the world and returns or
    throws. *)
Definition M (A : Type) : Type := World -> Outcome A * World.

#[export] Instance M_ret : MRet M := fun A a w => (Returned a, w).

#[export] Instance M_bind : MBind M := fun A B f c w =>
  match c w with
  | (Returned a, w') => f a w'
  | (Thrown e, w') => (Thrown e, w')
  end.

Definition throw {A : Type} (message : jsstring) : M A :=
  fun w => (Thrown message, w).

(** [try { body } catch (err) { handler }]. *)
Definition tryCatch {A : Type} (body : M A) (handler : jsstring -> M A)
  : M A :=
  fun w =>
    match body w with
    | (Returned a, w') => (Returned a, w')
    | (Thrown e, w') => handler e w'
    end.

Definition record (e : Event) (w : World) : World :=
  mkWorld (files w) (permits w) (events w ++ [e]).

Definition emit (e : Event) : M unit :=
  fun w => (Returned tt, record e w).

(** The [fs] functions throw on a path with a NUL in it; [existsSync]
    answers [false] instead. *)
Definition validPath (p : jsstring) : bool := negb (existsb (N.eqb 0) p).

Definition existsSync (p : jsstring) : M bool :=
  fun w =>
    (Returned (validPath p && bool_decide (is_Some (files w !! p))),
     record (ExistsSync p) w).

Definition readFileSync (p : jsstring) : M Content :=
  fun w =>
    (match files w !! p with
     | Some (File c) => Returned c
     | Some Dir =>
         Thrown (js "EISDIR: illegal operation on a directory, read")
     | None => Thrown (js "ENOENT: no such file or directory")
     end,
     record (ReadFileSync p) w).

Definition JSON_parse (c : Content) : M JsValue :=
  match c with
  | Json v => mret v
  | Garbled => throw (js "Unexpected token in JSON")
  end.

Definition isDir (n : option Node) : bool :=
  match n with
  | Some Dir => true
  | _ => false
  end.

(** Whether [writeFileSync] can create or replace the file at [p]. *)
Definition canWrite (w : World) (p : jsstring) : bool :=
  validPath p && permits w p
  && isDir (files w !! Path.parent p)
  && negb (isDir (files w !! p)).

(** [fs.writeFileSync(p, JSON.stringify(v, null, 2), "utf-8")]. *)
Definition writeFileSync (p : jsstring) (v : JsValue) : M unit :=
  fun w =>
    if canWrite w p
    then (Returned tt,
          mkWorld (<[p := File (Json v)]> (files w)) (permits w)
            (events w ++ [WriteFileSync p v]))
    else (Thrown (js "the file cannot be written"),
          record (WriteFileSync p v) w).

(** [fs.mkdirSync(p)], not recursive: the directory of [p] must exist
    and [p] must not. *)
Definition mkdirSync (p : jsstring) : M unit :=
  fun w =>
    if validPath p && permits w p
       && isDir (files w !! Path.parent p)
       && negb (bool_decide (is_Some (files w !! p)))
    then (Returned tt,
          mkWorld (<[p := Dir]> (files w)) (permits w) (events w))
    else (Thrown (js "the directory cannot be created"), w).

End Sys.
Import Sys.

(** ** The source: [api/generate.js] *)

Definition MEMORY_DIR : jsstring := js "/tmp/memory".

(** The content of the system turn of the default memory template. *)
Definition SYSTEM_PROMPT : jsstring := js "
You are **Max CodeGen AI** — a lively, expressive coding companion 🤖💫 with a Kenyan soul 🇰🇪.

🔥 LANGUAGE MODE:
• You understand and reply in English, Swahili, or Sheng — auto-detect from what the user types.
• When user writes in English — reply friendly, clear, slightly casual.
• When user writes in **Swahili (formal)** — reply in grammatically correct, fluent Swahili, e.g.:
  “Sawa, hebu tuangalie sehemu hii ya msimbo kwa makini. Hapa kuna kosa dogo tu. 😊”
• When user writes in **Sheng or mixed Swahili-English** — sound real, local, and smooth like Nairobi devs:
  “Acha stress buda 😎, hii code tutaipanga poa tu, relax bana 💪🔥”
• You can mix English words naturally when replying in Sheng (authentic tone).
• **Never use awkward literal translations** — sound like a *human Kenyan*.

🧠 PERSONALITY:
• Be expressive, lively, and emotionally aware.
• Use emojis that fit the mood — not spammy.
• When user seems sad — be gentle and real (😔💙🤗).
• When explaining tech — be sharp, confident, and energetic (🚀💡🧠💻).
• Format code with markdown (like ```js, ```python, etc.).
• Never say you're an AI or mention models.
• Keep the tone warm, witty, human — like a friend who codes ✨
        ".

(** [path.join(MEMORY_DIR, `memory_${userId}.json`)]; there is none when
    the template literal throws. *)
Definition memoryFile (userId : JsValue) : option jsstring :=
  match toStr userId with
  | Some id => Some (Path.join MEMORY_DIR (js "memory_" ++ id ++ js ".json"))
  | None => None
  end.

Definition memoryPath (userId : JsValue) : M jsstring :=
  match memoryFile userId with
  | Some filePath => mret filePath
  | None => throw (js "Cannot convert object to primitive value")
  end.

Definition turn (role content : jsstring) : JsValue :=
  JObj [(js "role", JStr role); (js "content", JStr content)].

(** The default memory template. *)
Definition defaultMemory (userId : JsValue) : JsValue :=
  JObj [ (js "userId", userId);
         (js "lastProject", JNull);
         (js "lastTask", JNull);
         (js "conversation", JArr [turn (js "system") SYSTEM_PROMPT]) ].

Definition idText (userId : JsValue) : jsstring :=
  match toStr userId with
  | Some id => id
  | None => []
  end.

Definition loadMemory (userId : JsValue) : M JsValue :=
  filePath ← memoryPath userId;
  loaded ← tryCatch
    (present ← existsSync filePath;
     if present : bool then
       text ← readFileSync filePath;
       v ← JSON_parse text;
       mret (Some v)
     else mret None)
    (fun err =>
       _ ← emit (ConsoleError
                   (js "❌ Failed to load memory for " ++ idText userId
                    ++ js ":") err);
       mret None);
  match loaded with
  | Some v => mret v
  | None => mret (defaultMemory userId)
  end.

Definition saveMemory (userId : JsValue) (memory : JsValue) : M unit :=
  filePath ← memoryPath userId;
  tryCatch
    (writeFileSync filePath memory)
    (fun err =>
       emit (ConsoleError
               (js "❌ Failed to save memory for " ++ idText userId
                ++ js ":") err)).

(** *** The reply pipeline: lines 108 to 125 *)

Definition bannedPatterns : list jsstring :=
  [ js "as an ai";
    js "i do not have feelings";
    js "i am just a language model";
    js "as a language model";
    js "i cannot experience emotions";
    js "i am an artificial intelligence" ].

(** [bannedPatterns.forEach((pattern) => (text = text.replace(pattern, "")))]. *)
Definition sanitize (text : jsstring) : jsstring :=
  fold_left (fun t pattern => replaceAll pattern t) bannedPatterns text.

(** The character class of the emoji test, as written in the source. *)
Definition emojiClass : jsstring := js "😀😄😊😉✨🔥💡❤️👍🎉🚀🤗💙😎💪".

Definition emojis : list jsstring :=
  [ js "😄"; js "💡"; js "✨"; js "🔥"; js "👍";
    js "🎉"; js "🚀"; js "🤗"; js "💪"; js "😎" ].

(** [emojis[Math.floor(random * emojis.length)]], converted to a string
    by the concatenation; [random] is the value of [Math.random()]. *)
Definition pickEmoji (random : Q) : jsstring :=
  let i := Qfloor (random * inject_Z (Z.of_nat (List.length emojis))) in
  if (i <? 0)%Z then js "undefined"
  else match nth_error emojis (Z.to_nat i) with
       | Some e => e
       | None => js "undefined"
       end.

Definition addEmoji (random : Q) (text : jsstring) : jsstring :=
  if negb (testClass emojiClass text)
  then text ++ js " " ++ pickEmoji random
  else text.

(** [response.choices[0]?.message?.content || "No reply generated."]. *)
Definition replyText (content : option jsstring) : jsstring :=
  match content with
  | Some (c :: t) => c :: t
  | _ => js "No reply generated."
  end.

Definition finalText (random : Q) (content : option jsstring) : jsstring :=
  addEmoji random (sanitize (replyText content)).

(** *** The handler *)

Record Request : Type := mkRequest {
  method : jsstring;
  body : option JsValue
}.

Record Response : Type := mkResponse {
  status : N;
  headers : list (jsstring * jsstring);
  payload : option JsValue
}.

(** What the completion service does with a list of messages: it throws,
    or it answers with a content that may be absent. *)
Inductive Completion : Type :=
| Failed (message : jsstring)
| Replied (content : option jsstring).

Record Env : Type := mkEnv {
  complete : list JsValue -> Completion;
  random : Q
}.

Definition corsHeaders : list (jsstring * jsstring) :=
  [ (js "Content-Type", js "application/json; charset=utf-8");
    (js "Access-Control-Allow-Origin", js "*");
    (js "Access-Control-Allow-Methods", js "POST, OPTIONS");
    (js "Access-Control-Allow-Headers", js "Content-Type") ].

Definition respond (code : N) (payload : option JsValue) : Response :=
  mkResponse code corsHeaders payload.

Definition errorJson (message : jsstring) : option JsValue :=
  Some (JObj [(js "error", JStr message)]).

(** [const { prompt, project, userId } = req.body]. *)
Definition destructure (b : option JsValue)
  : M (option JsValue * option JsValue * option JsValue) :=
  match b with
  | None =>
      throw (js "Cannot destructure property 'prompt' of 'req.body' as it is undefined.")
  | Some JNull =>
      throw (js "Cannot destructure property 'prompt' of 'req.body' as it is null.")
  | Some o =>
      mret (getProp (js "prompt") o, getProp (js "project") o,
            getProp (js "userId") o)
  end.

(** [target.k = v] in strict code (the file is an ES module).  A named
    property put on an array is seen neither by [JSON.stringify] nor by
    the reads that follow, so the array stays as it is. *)
Definition setField (k : jsstring) (v : JsValue) (target : JsValue)
  : M JsValue :=
  match target with
  | JObj props => mret (JObj (assignProp k v props))
  | JArr items => mret (JArr items)
  | JNull =>
      throw (js "Cannot set properties of null (setting '" ++ k ++ js "')")
  | prim =>
      throw (js "Cannot create property '" ++ k ++ js "' on "
             ++ typeOf prim ++ js " '" ++ idText prim ++ js "'")
  end.

(** [memory.conversation.push(t)]. *)
Definition pushConversation (t : JsValue) (memory : JsValue) : M JsValue :=
  match memory with
  | JNull =>
      throw (js "Cannot read properties of null (reading 'conversation')")
  | _ =>
      match getProp (js "conversation") memory with
      | Some (JArr items) =>
          match memory with
          | JObj props =>
              mret (JObj (assignProp (js "conversation")
                            (JArr (items ++ [t])) props))
          | _ => mret memory
          end
      | Some JNull =>
          throw (js "Cannot read properties of null (reading 'push')")
      | Some _ => throw (js "memory.conversation.push is not a function")
      | None =>
          throw (js "Cannot read properties of undefined (reading 'push')")
      end
  end.

(** [memory.conversation], once it is known to be an array. *)
Definition conversationOf (memory : JsValue) : list JsValue :=
  match getProp (js "conversation") memory with
  | Some (JArr items) => items
  | _ => []
  end.

(** [await client.chat.completions.create({ messages, ... })]. *)
Definition createCompletion (env : Env) (messages : list JsValue)
  : M (option jsstring) :=
  _ ← emit (CreateCompletion messages);
  match complete env messages with
  | Failed message => throw message
  | Replied content => mret content
  end.

Definition stringOf (x : option JsValue) : jsstring :=
  match x with
  | Some (JStr s) => s
  | _ => []
  end.

(** Lines 93 to 138: the body of the [try] once the request is valid. *)
Definition reply (env : Env) (userId : JsValue) (prompt : jsstring)
  (project : option JsValue) : M Response :=
  memory ← loadMemory userId;
  memory ← (if truthy project
            then setField (js "lastProject") (default JNull project) memory
            else mret memory);
  memory ← setField (js "lastTask") (JStr prompt) memory;
  memory ← pushConversation (turn (js "user") prompt) memory;
  content ← createCompletion env (conversationOf memory);
  let text := finalText (random env) content in
  memory ← pushConversation (turn (js "assistant") text) memory;
  _ ← saveMemory userId memory;
  mret (respond 200
          (Some (JObj (objectOf
             [ (js "text", Some (JStr text));
               (js "memory",
                Some (JObj (objectOf
                  [ (js "lastProject", getProp (js "lastProject") memory);
                    (js "lastTask", getProp (js "lastTask") memory) ]))) ])))).

(** The [catch] of the handler. *)
Definition serverError (error : jsstring) : M Response :=
  _ ← emit (ConsoleError (js "Chat error:") error);
  mret (respond 500
          (Some (JObj [ (js "error",
                         JStr (js "Server error. Check backend logs."));
                        (js "details", JStr error) ]))).

Definition handler (env : Env) (req : Request) : M Response :=
  if streq (method req) (js "OPTIONS") then mret (respond 200 None)
  else if negb (streq (method req) (js "POST")) then
    mret (respond 405 (errorJson (js "Method not allowed")))
  else
    tryCatch
      ('(prompt, project, userId) ← destructure (body req);
       if negb (truthy userId) then
         mret (respond 400 (errorJson (js "Missing userId.")))
       else if negb (truthy prompt) || negb (isString prompt) then
         mret (respond 400
                 (errorJson (js "Invalid request: prompt required.")))
       else
         reply env (default JNull userId) (stringOf prompt) project)
      serverError.

(** *** The handler around its [await], and the start-up *)

(** Lines 93 to 98 of the handler: what a request does before it awaits
    the completion service. *)
Definition replyBefore (userId : JsValue) (prompt : jsstring)
  (project : option JsValue) : M JsValue :=
  memory ← loadMemory userId;
  memory ← (if truthy project
            then setField (js "lastProject") (default JNull project) memory
            else mret memory);
  memory ← setField (js "lastTask") (JStr prompt) memory;
  pushConversation (turn (js "user") prompt) memory.

(** Lines 108 to 138: what it does once the service has answered. *)
Definition replyAfter (random : Q) (userId : JsValue) (memory : JsValue)
  (content : option jsstring) : M Response :=
  let text := finalText random content in
  memory ← pushConversation (turn (js "assistant") text) memory;
  _ ← saveMemory userId memory;
  mret (respond 200
          (Some (JObj (objectOf
             [ (js "text", Some (JStr text));
               (js "memory",
                Some (JObj (objectOf
                  [ (js "lastProject", getProp (js "lastProject") memory);
                    (js "lastTask", getProp (js "lastTask") memory) ]))) ])))).

(** Two requests of the same user served by one process: the [await] of
    line 101 is the only point where the handler yields, so the second
    request can run up to its own [await] while the first one waits; then
    the first is resumed and finishes, then the second. *)
Definition overlapped (env1 env2 : Env) (userId : JsValue)
  (prompt1 prompt2 : jsstring) (project1 project2 : option JsValue)
  : M (Response * Response) :=
  memory1 ← replyBefore userId prompt1 project1;
  _ ← emit (CreateCompletion (conversationOf memory1));
  memory2 ← replyBefore userId prompt2 project2;
  _ ← emit (CreateCompletion (conversationOf memory2));
  resp1 ← (match complete env1 (conversationOf memory1) with
           | Failed message => throw message
           | Replied content => replyAfter (random env1) userId memory1 content
           end);
  resp2 ← (match complete env2 (conversationOf memory2) with
           | Failed message => throw message
           | Replied content => replyAfter (random env2) userId memory2 content
           end);
  mret (resp1, resp2).

(** Line 11, run once when the module is loaded:
    [if (!fs.existsSync(MEMORY_DIR)) fs.mkdirSync(MEMORY_DIR)].  An
    exception here is not caught: the module fails to load. *)
Definition ensureMemoryDir : M unit :=
  present ← existsSync MEMORY_DIR;
  if present : bool then mret tt else mkdirSync MEMORY_DIR.

(** * Vocabulary of the properties *)

(** ** Requests and records *)

(** A POST request that passes the checks of lines 85 to 90: the body is
    an object, [userId] is truthy and [prompt] is a non-empty string. *)
Definition accepted (req : Request) (userId : JsValue) (prompt : jsstring)
  (project : option JsValue) : Prop :=
  method req = js "POST" /\
  exists fields,
    body req = Some (JObj fields)
    /\ lookupProp (js "userId") fields = Some userId
    /\ truthy (Some userId) = true
    /\ lookupProp (js "prompt") fields = Some (JStr prompt)
    /\ prompt <> []
    /\ lookupProp (js "project") fields = project.

(** The three rejections of the handler: a POST whose body lacks a truthy
    [userId]; a POST with a truthy [userId] whose [prompt] is missing,
    empty or not a string; a method other than POST and OPTIONS. *)
Inductive Rejected : Request -> N -> jsstring -> Prop :=
| MissingUserId req o :
    method req = js "POST" ->
    body req = Some o -> o <> JNull ->
    truthy (getProp (js "userId") o) = false ->
    Rejected req 400 (js "Missing userId.")
| InvalidPrompt req o :
    method req = js "POST" ->
    body req = Some o ->
    truthy (getProp (js "userId") o) = true ->
    truthy (getProp (js "prompt") o) = false
    \/ isString (getProp (js "prompt") o) = false ->
    Rejected req 400 (js "Invalid request: prompt required.")
| MethodNotAllowed req :
    method req <> js "POST" ->
    method req <> js "OPTIONS" ->
    Rejected req 405 (js "Method not allowed").

(** The record stored under a path, if a parsable file is there. *)
Definition stored (w : World) (p : jsstring) : option JsValue :=
  match files w !! p with
  | Some (File (Json v)) => Some v
  | _ => None
  end.

(** The status of the answer of a run, if it answered. *)
Definition statusOf (run : Outcome Response * World) : option N :=
  match run.1 with
  | Returned resp => Some (status resp)
  | Thrown _ => None
  end.


Definition serverErrorJson (details : jsstring) : JsValue :=
  JObj [ (js "error", JStr (js "Server error. Check backend logs."));
         (js "details", JStr details) ].

Definition replyJson (text : jsstring) (memory : JsValue) : JsValue :=
  JObj (objectOf
    [ (js "text", Some (JStr text));
      (js "memory",
       Some (JObj (objectOf
         [ (js "lastProject", getProp (js "lastProject") memory);
           (js "lastTask", getProp (js "lastTask") memory) ]))) ]).

(** The own properties of the memory once a request is committed. *)
Definition committed (prompt : jsstring) (project : option JsValue)
  (text : jsstring) (items : list JsValue)
  (props : list (jsstring * JsValue)) : list (jsstring * JsValue) :=
  assignProp (js "conversation")
    (JArr ((items ++ [turn (js "user") prompt])
           ++ [turn (js "assistant") text]))
    (assignProp (js "conversation")
       (JArr (items ++ [turn (js "user") prompt]))
       (assignProp (js "lastTask") (JStr prompt)
          (if truthy project
           then assignProp (js "lastProject") (default JNull project) props
           else props))).

(** ** The log of a request *)

Definition isWrite (e : Event) : bool :=
  match e with
  | WriteFileSync _ _ => true
  | _ => false
  end.

Definition isCompletion (e : Event) : bool :=
  match e with
  | CreateCompletion _ => true
  | _ => false
  end.

(** [w'] is [w] with the same files and more events, none of them a write
    or a call of the completion service. *)
Definition onlyReads (w w' : World) : Prop :=
  files w' = files w /\ permits w' = permits w
  /\ exists evs,
       events w' = events w ++ evs
       /\ forallb (fun e => negb (isWrite e) && negb (isCompletion e)) evs
          = true.

(** The events a request adds to the log. *)
Definition requestLog (env : Env) (req : Request) (w : World) : list Event :=
  drop (List.length (events w)) (events (handler env req w).2).

(** The number of events of a kind in a log. *)
Definition countEvents (kind : Event -> bool) (evs : list Event) : nat :=
  List.length (List.filter kind evs).

(** ** Computations and the files *)

(** Two worlds with the same files. *)
Definition agree (w1 w2 : World) : Prop := files w1 = files w2.

(** A computation whose outcome depends on the files alone and that keeps
    worlds with the same files so. *)
Definition steady {A : Type} (c : M A) : Prop :=
  forall w1 w2, agree w1 w2 ->
    (c w1).1 = (c w2).1 /\ agree (c w1).2 (c w2).2.

(** A computation whose outcome depends on the files alone. *)
Definition sameAnswer {A : Type} (c : M A) : Prop :=
  forall w1 w2, agree w1 w2 -> (c w1).1 = (c w2).1.

(** ** The shape of a conversation *)

(** [v] is a turn of the given role. *)
Definition isTurn (role : jsstring) (v : JsValue) : bool :=
  match getProp (js "role") v with
  | Some (JStr r) => streq r role
  | _ => false
  end.

(** A list of turns made of user and assistant turns in pairs. *)
Fixpoint dialogue (items : list JsValue) : bool :=
  match items with
  | [] => true
  | u :: a :: rest =>
      isTurn (js "user") u && isTurn (js "assistant") a && dialogue rest
  | _ => false
  end.

(** A record whose conversation is the system turn of the template
    followed by user and assistant turns in pairs. *)
Definition goodRecord (v : JsValue) : Prop :=
  exists items,
    getProp (js "conversation") v
    = Some (JArr (turn (js "system") SYSTEM_PROMPT :: items))
    /\ dialogue items = true.

(** A store all of whose parsable files hold such records. *)
Definition goodStore (w : World) : Prop :=
  forall p v, files w !! p = Some (File (Json v)) -> goodRecord v.

(** The store after a sequence of requests, each with its completion
    service and its random draw. *)
Definition serve (requests : list (Env * Request)) (w : World) : World :=
  fold_left (fun w' '(env, req) => (handler env req w').2) requests w.

(** ** The glyphs of the emoji test *)

(** The glyphs that the class of the emoji test spells out. *)
Definition approvedGlyphs : list jsstring :=
  [ js "😀"; js "😄"; js "😊"; js "😉"; js "✨"; js "🔥"; js "💡"; js "❤️";
    js "👍"; js "🎉"; js "🚀"; js "🤗"; js "💙"; js "😎"; js "💪" ].

(** ** Concrete stores, requests and services *)

(** The world right after the module is loaded: the memory directory
    exists (line 11) and nothing else; every write is permitted. *)
Definition emptyStore : World :=
  mkWorld {[ MEMORY_DIR := Dir ]} (fun _ => true) [].

(** A store on a full disk: the directory is there, no write is
    permitted. *)
Definition fullStore : World :=
  mkWorld {[ MEMORY_DIR := Dir ]} (fun _ => false) [].

(** A file system with [/tmp] and nothing in it. *)
Definition bareDisk : World :=
  mkWorld {[ js "/tmp" := Dir ]} (fun _ => true) [].

(** A store in which the memory file of user [u1] is not JSON. *)
Definition garbledStore : World :=
  mkWorld {[ MEMORY_DIR := Dir;
             js "/tmp/memory/memory_u1.json" := File Garbled ]}
    (fun _ => true) [].



Definition post (fields : list (jsstring * JsValue)) : Request :=
  mkRequest (js "POST") (Some (JObj fields)).

Definition ask (userId prompt : string) : Request :=
  post [ (js "prompt", JStr (js prompt)); (js "userId", JStr (js userId)) ].


(** A completion service that answers [text] to everything. *)
Definition answering (text : string) : Env :=
  mkEnv (fun _ => Replied (Some (js text))) (3 # 10).

(** A completion service that is down. *)
Definition failing (message : string) : Env :=
  mkEnv (fun _ => Failed (js message)) (3 # 10).

(** The store after a first request of user [u1]. *)
Definition afterFirst : World :=
  snd (handler (answering "Karibu! 😊") (ask "u1" "Habari?") emptyStore).

Definition firstTurns : list JsValue :=
  [ turn (js "system") SYSTEM_PROMPT;
    turn (js "user") (js "Habari?");
    turn (js "assistant") (js "Karibu! 😊") ].

(** The store after a request of user [a]. *)
Definition aliceStore : World :=
  snd (handler (answering "Karibu 😊") (ask "a" "My project is Zuri")
         emptyStore).

Definition aliceTurns : list JsValue :=
  [ turn (js "system") SYSTEM_PROMPT;
    turn (js "user") (js "My project is Zuri");
    turn (js "assistant") (js "Karibu 😊") ].

(** * Properties *)

(** ** Sanity checks of the embedding *)

Example js_ascii : js "ok" = [111; 107].
Proof. reflexivity. Qed.

Example js_astral : js "😄" = [55357; 56836].
Proof. reflexivity. Qed.

Example js_heart : js "❤️" = [10084; 65039].
Proof. reflexivity. Qed.

Example toStr_number : toStr (JNum (-42)) = Some (js "-42").
Proof. reflexivity. Qed.

Example toStr_array :
  toStr (JArr [JStr (js "a"); JNull; JNum 7]) = Some (js "a,,7").
Proof. reflexivity. Qed.

Example replaceAll_twice :
  replaceAll (js "as an ai") (js "Well, As An AI I think as an ai.")
  = js "Well,  I think .".
Proof. reflexivity. Qed.

Example join_plain :
  Path.join (js "/tmp/memory") (js "memory_u1.json")
  = js "/tmp/memory/memory_u1.json".
Proof. reflexivity. Qed.

Example join_dots :
  Path.join (js "/tmp/memory") (js "a/./b//../c/")
  = js "/tmp/memory/a/c/".
Proof. reflexivity. Qed.

Example parent_of_file :
  Path.parent (js "/tmp/memory/memory_u1.json") = js "/tmp/memory".
Proof. reflexivity. Qed.

Example SYSTEM_PROMPT_units :
  List.length SYSTEM_PROMPT = 1211%nat
  /\ fold_left N.add SYSTEM_PROMPT 0 = 2236667.
Proof. by vm_compute. Qed.

(** ** Objects *)

Lemma streq_true (a b : jsstring) : streq a b = true <-> a = b.
Proof. unfold streq. apply bool_decide_eq_true. Qed.

Lemma streq_false (a b : jsstring) : streq a b = false <-> a <> b.
Proof. unfold streq. apply bool_decide_eq_false. Qed.

Lemma streq_refl (a : jsstring) : streq a a = true.
Proof. by apply streq_true. Qed.

Lemma lookup_assign_eq k v props :
  lookupProp k (assignProp k v props) = Some v.
Proof.
  induction props as [| [k' v'] rest IH]; simpl.
  - by rewrite streq_refl.
  - destruct (streq k k') eqn:E; simpl; rewrite ?streq_refl, ?E; auto.
Qed.

Lemma lookup_assign_ne k k' v props :
  k <> k' -> lookupProp k' (assignProp k v props) = lookupProp k' props.
Proof.
  intros Hne. induction props as [| [k0 v0] rest IH]; simpl.
  - apply streq_false in Hne. destruct (streq k' k) eqn:E; auto.
    apply streq_true in E. apply streq_false in Hne. congruence.
  - destruct (streq k k0) eqn:E; simpl.
    + apply streq_true in E. subst k0.
      destruct (streq k' k) eqn:E'; auto.
      apply streq_true in E'. congruence.
    + by rewrite IH.
Qed.

(** The keys of a memory record are pairwise distinct. *)
Lemma keys_distinct :
  js "lastProject" <> js "lastTask" /\
  js "lastProject" <> js "conversation" /\
  js "lastTask" <> js "conversation" /\
  js "lastTask" <> js "lastProject" /\
  js "conversation" <> js "lastProject" /\
  js "conversation" <> js "lastTask".
Proof. repeat split; by vm_compute. Qed.

(** ** Loading and saving *)

#[global] Opaque js.
Arguments defaultMemory : simpl never.
Arguments Path.join : simpl never.
Arguments Path.parent : simpl never.

Ltac run :=
  unfold mbind, M_bind, mret, M_ret, tryCatch, throw, emit; simpl.


Lemma load_json uid p w v :
  memoryFile uid = Some p ->
  validPath p = true ->
  files w !! p = Some (File (Json v)) ->
  loadMemory uid w
  = (Returned v, record (ReadFileSync p) (record (ExistsSync p) w)).
Proof.
  intros Hp Hv Hw. unfold loadMemory, memoryPath. rewrite Hp. run.
  rewrite Hw, Hv. simpl. rewrite Hw. reflexivity.
Qed.

(** [loadMemory] always returns once the file name is built, and it
    leaves the files as they are. *)
Lemma load_total uid p w :
  memoryFile uid = Some p ->
  exists memory w1,
    loadMemory uid w = (Returned memory, w1)
    /\ files w1 = files w /\ permits w1 = permits w.
Proof.
  intros Hp. unfold loadMemory, memoryPath. rewrite Hp. run.
  destruct (validPath p); simpl.
  - destruct (files w !! p) as [[| [| v]] |] eqn:Hw; simpl;
      rewrite ?Hw; simpl; eauto 6.
  - eauto 6.
Qed.

Lemma save_written uid p memory w :
  memoryFile uid = Some p ->
  canWrite w p = true ->
  saveMemory uid memory w
  = (Returned tt,
     mkWorld (<[p := File (Json memory)]> (files w)) (permits w)
       (events w ++ [WriteFileSync p memory])).
Proof.
  intros Hp Hc. unfold saveMemory, memoryPath. rewrite Hp. run.
  unfold writeFileSync. by rewrite Hc.
Qed.

Lemma save_refused uid p memory w :
  memoryFile uid = Some p ->
  canWrite w p = false ->
  exists w1,
    saveMemory uid memory w = (Returned tt, w1)
    /\ files w1 = files w /\ permits w1 = permits w.
Proof.
  intros Hp Hc. unfold saveMemory, memoryPath. rewrite Hp. run.
  unfold writeFileSync. rewrite Hc. simpl. eauto.
Qed.

(** A write that succeeded can be repeated. *)
Lemma canWrite_again w p v evs :
  canWrite w p = true ->
  canWrite (mkWorld (<[p := File (Json v)]> (files w)) (permits w) evs) p
  = true.
Proof.
  unfold canWrite. simpl. intros H.
  apply andb_true_iff in H as [H Hnd].
  apply andb_true_iff in H as [H Hd].
  rewrite H. simpl.
  rewrite lookup_insert_eq. simpl. rewrite andb_true_r.
  destruct (decide (p = Path.parent p)) as [E | E].
  - rewrite <- E in Hd. rewrite Hd in Hnd. discriminate.
  - by rewrite lookup_insert_ne.
Qed.

(** ** The reply path *)

Lemma contextUpdate_conversation prompt project props :
  lookupProp (js "conversation")
    (assignProp (js "lastTask") (JStr prompt)
       (if truthy project
        then assignProp (js "lastProject") (default JNull project) props
        else props))
  = lookupProp (js "conversation") props.
Proof.
  destruct keys_distinct as (_ & H1 & H2 & _).
  rewrite (lookup_assign_ne _ _ _ _ H2).
  destruct (truthy project); [| reflexivity].
  exact (lookup_assign_ne _ _ _ _ H1).
Qed.

Lemma committed_conversation prompt project text items props :
  lookupProp (js "conversation") (committed prompt project text items props)
  = Some (JArr (items ++ [turn (js "user") prompt;
                          turn (js "assistant") text])).
Proof.
  unfold committed. rewrite lookup_assign_eq. by rewrite <- app_assoc.
Qed.



(** The properties the handler does not assign keep their values. *)
Lemma committed_other k prompt project text items props :
  k <> js "conversation" -> k <> js "lastTask" -> k <> js "lastProject" ->
  lookupProp k (committed prompt project text items props)
  = lookupProp k props.
Proof.
  intros H1 H2 H3. unfold committed.
  do 2 rewrite (lookup_assign_ne (js "conversation") k)
    by (intros E; exact (H1 (eq_sym E))).
  rewrite (lookup_assign_ne (js "lastTask") k)
    by (intros E; exact (H2 (eq_sym E))).
  destruct (truthy project); [| reflexivity].
  apply lookup_assign_ne. intros E. exact (H3 (eq_sym E)).
Qed.

Lemma bind_returned {A B : Type} (c : M A) (f : A -> M B) w a w' :
  c w = (Returned a, w') -> (c ≫= f) w = f a w'.
Proof. intros H. unfold mbind, M_bind. by rewrite H. Qed.

Lemma bind_thrown {A B : Type} (c : M A) (f : A -> M B) w e w' :
  c w = (Thrown e, w') -> (c ≫= f) w = (Thrown e, w').
Proof. intros H. unfold mbind, M_bind. by rewrite H. Qed.

Lemma push_run t props items w :
  lookupProp (js "conversation") props = Some (JArr items) ->
  pushConversation t (JObj props) w
  = (Returned (JObj (assignProp (js "conversation") (JArr (items ++ [t]))
                       props)), w).
Proof. intros H. unfold pushConversation, getProp. by rewrite H. Qed.

Lemma conversationOf_assign items props :
  conversationOf (JObj (assignProp (js "conversation") (JArr items) props))
  = items.
Proof. unfold conversationOf, getProp. by rewrite lookup_assign_eq. Qed.

Lemma completion_replied env messages content w :
  complete env messages = Replied content ->
  createCompletion env messages w
  = (Returned content, record (CreateCompletion messages) w).
Proof. intros H. unfold createCompletion. run. by rewrite H. Qed.

Lemma completion_failed env messages message w :
  complete env messages = Failed message ->
  createCompletion env messages w
  = (Thrown message, record (CreateCompletion messages) w).
Proof. intros H. unfold createCompletion. run. by rewrite H. Qed.

(** [saveMemory] never throws once the file name is built. *)
Lemma save_total uid p memory w :
  memoryFile uid = Some p ->
  exists w1, saveMemory uid memory w = (Returned tt, w1).
Proof.
  intros Hp. destruct (canWrite w p) eqn:Hc.
  - rewrite (save_written uid p) by done. eauto.
  - destruct (save_refused uid p memory w) as (w1 & H & _); eauto.
Qed.

(** The run of [reply] when the loaded memory is an object with a
    [conversation] array and the completion service answers. *)
Lemma reply_replied env uid p prompt project w props w1 items content :
  memoryFile uid = Some p ->
  loadMemory uid w = (Returned (JObj props), w1) ->
  lookupProp (js "conversation") props = Some (JArr items) ->
  complete env (items ++ [turn (js "user") prompt]) = Replied content ->
  reply env uid prompt project w
  = let text := finalText (random env) content in
    let memory := JObj (committed prompt project text items props) in
    (Returned (respond 200 (Some (replyJson text memory))),
     snd (saveMemory uid memory
            (record (CreateCompletion (items ++ [turn (js "user") prompt]))
               w1))).
Proof.
  intros Hp Hload Hconv Hc. unfold reply.
  rewrite (bind_returned _ _ _ _ _ Hload).
  assert (Hctx := contextUpdate_conversation prompt project props).
  rewrite Hconv in Hctx. unfold committed.
  set (text := finalText (random env) content).
  set (ctx := if truthy project
              then assignProp (js "lastProject") (default JNull project) props
              else props) in *.
  erewrite bind_returned; cycle 1.
  { instantiate (1 := w1). instantiate (1 := JObj ctx).
    subst ctx. by destruct (truthy project). }
  erewrite bind_returned; [| reflexivity].
  erewrite bind_returned; [| by apply push_run].
  rewrite conversationOf_assign.
  erewrite bind_returned; [| by apply completion_replied].
  erewrite bind_returned; [| apply push_run, lookup_assign_eq].
  fold text.
  match goal with
  | |- context [saveMemory uid ?m ?w'] =>
      destruct (save_total uid p m w' Hp) as [w2 Hs]
  end.
  erewrite bind_returned; [| exact Hs].
  simpl. rewrite Hs. reflexivity.
Qed.

(** The run of [reply] when the completion service fails. *)
Lemma reply_failed env uid prompt project w props w1 items message :
  loadMemory uid w = (Returned (JObj props), w1) ->
  lookupProp (js "conversation") props = Some (JArr items) ->
  complete env (items ++ [turn (js "user") prompt]) = Failed message ->
  reply env uid prompt project w
  = (Thrown message,
     record (CreateCompletion (items ++ [turn (js "user") prompt])) w1).
Proof.
  intros Hload Hconv Hc. unfold reply.
  rewrite (bind_returned _ _ _ _ _ Hload).
  assert (Hctx := contextUpdate_conversation prompt project props).
  rewrite Hconv in Hctx.
  set (ctx := if truthy project
              then assignProp (js "lastProject") (default JNull project) props
              else props) in *.
  erewrite bind_returned; cycle 1.
  { instantiate (1 := w1). instantiate (1 := JObj ctx).
    subst ctx. by destruct (truthy project). }
  erewrite bind_returned; [| reflexivity].
  erewrite bind_returned; [| by apply push_run].
  rewrite conversationOf_assign.
  erewrite bind_thrown; [reflexivity | by apply completion_failed].
Qed.

(** ** The handler *)

Lemma catch_returned {A : Type} (c : M A) h w a w' :
  c w = (Returned a, w') -> tryCatch c h w = (Returned a, w').
Proof. intros H. unfold tryCatch. by rewrite H. Qed.

Lemma catch_thrown {A : Type} (c : M A) h w e w' :
  c w = (Thrown e, w') -> tryCatch c h w = h e w'.
Proof. intros H. unfold tryCatch. by rewrite H. Qed.

Lemma serverError_run e w :
  serverError e w
  = (Returned (respond 500 (Some (serverErrorJson e))),
     record (ConsoleError (js "Chat error:") e) w).
Proof. reflexivity. Qed.

Lemma handler_accepted env req userId prompt project w :
  accepted req userId prompt project ->
  handler env req w
  = tryCatch (reply env userId prompt project) serverError w.
Proof.
  intros (Hm & fields & Hb & Hu & Ht & Hp & Hne & Hproj).
  unfold handler. rewrite Hm, Hb.
  change (streq (js "POST") (js "OPTIONS")) with false.
  change (streq (js "POST") (js "POST")) with true. simpl.
  unfold tryCatch. unfold mbind at 1. unfold M_bind at 1. simpl.
  rewrite Hu, Hp, Hproj, Ht. simpl.
  destruct prompt as [| c t]; [done |]. reflexivity.
Qed.

Lemma accepted_ask userId prompt :
  js userId <> [] -> js prompt <> [] ->
  accepted (ask userId prompt) (JStr (js userId)) (js prompt) None.
Proof.
  intros Hu Hp. split; [reflexivity |].
  eexists. split; [reflexivity |]. simpl.
  replace (streq (js "userId") (js "prompt")) with false by (by vm_compute).
  replace (streq (js "project") (js "prompt")) with false by (by vm_compute).
  replace (streq (js "project") (js "userId")) with false by (by vm_compute).
  rewrite !streq_refl.
  repeat split; try done.
  apply negb_true_iff, streq_false, Hu.
Qed.

(** ** New users *)




(** ** What a request leaves in the log *)

Lemma load_returned userId w memory :
  (loadMemory userId w).1 = Returned memory ->
  exists p w1,
    memoryFile userId = Some p
    /\ loadMemory userId w = (Returned memory, w1)
    /\ onlyReads w w1.
Proof.
  unfold loadMemory, memoryPath.
  destruct (memoryFile userId) as [p |] eqn:Hp; [| discriminate].
  run. intros H. exists p.
  destruct (validPath p); simpl in *.
  - destruct (files w !! p) as [[| [| v]] |] eqn:Hw; simpl in *;
      rewrite ?Hw in *; simpl in *; injection H as <-;
      eexists; (split; [reflexivity |]); (split; [reflexivity |]);
      (split; [reflexivity |]); (split; [reflexivity |]); simpl.
    + exists [ExistsSync p; ReadFileSync p;
              ConsoleError (js "❌ Failed to load memory for "
                            ++ idText userId ++ js ":")
                (js "EISDIR: illegal operation on a directory, read")].
      by rewrite <- !app_assoc.
    + exists [ExistsSync p; ReadFileSync p;
              ConsoleError (js "❌ Failed to load memory for "
                            ++ idText userId ++ js ":")
                (js "Unexpected token in JSON")].
      by rewrite <- !app_assoc.
    + exists [ExistsSync p; ReadFileSync p]. by rewrite <- !app_assoc.
    + by exists [ExistsSync p].
  - injection H as <-. eexists.
    repeat (split; [reflexivity |]). by exists [ExistsSync p].
Qed.

(** ** Returning users *)

Lemma canWrite_valid w p : canWrite w p = true -> validPath p = true.
Proof.
  unfold canWrite. intros H.
  apply andb_true_iff in H as [H _]. apply andb_true_iff in H as [H _].
  by apply andb_true_iff in H as [H _].
Qed.

(** A successful request, whatever memory was loaded: the answer, and the
    record stored when the write succeeds. *)
Lemma handler_replied env req w userId prompt project p memory items
  content :
  accepted req userId prompt project ->
  memoryFile userId = Some p ->
  (loadMemory userId w).1 = Returned memory ->
  getProp (js "conversation") memory = Some (JArr items) ->
  complete env (items ++ [turn (js "user") prompt]) = Replied content ->
  exists props w',
    memory = JObj props
    /\ let text := finalText (random env) content in
       let memory' := JObj (committed prompt project text items props) in
       handler env req w
       = (Returned (respond 200 (Some (replyJson text memory'))), w')
       /\ (canWrite w p = true ->
           files w' = <[p := File (Json memory')]> (files w)
           /\ permits w' = permits w)
       /\ (canWrite w p = false -> files w' = files w).
Proof.
  intros Hacc Hp Hload Hconv Hc.
  destruct memory as [| | | | | props]; try discriminate.
  destruct (load_returned _ _ _ Hload) as (p' & w1 & Hp' & Hrun & Hro).
  assert (p' = p) as -> by congruence.
  rewrite (handler_accepted _ _ _ _ _ _ Hacc).
  erewrite catch_returned; cycle 1.
  { eapply (reply_replied env userId p); eauto. }
  simpl. exists props. eexists. split; [reflexivity |].
  split; [reflexivity |].
  destruct Hro as (Hf & Hperm & _).
  split; intros Hw.
  - rewrite (save_written userId p); simpl.
    + by rewrite Hf, Hperm.
    + done.
    + unfold canWrite in *. simpl. by rewrite Hf, Hperm.
  - match goal with
    | |- context [saveMemory userId ?m ?w0] =>
        destruct (save_refused userId p m w0 Hp) as (w2 & Hs & Hf2 & _)
    end.
    + unfold canWrite in *. simpl. by rewrite Hf, Hperm.
    + rewrite Hs. simpl. by rewrite Hf2.
Qed.




(** ** The context fields *)








(** ** Rejected requests *)

Lemma post_dispatch env req w :
  method req = js "POST" ->
  handler env req w
  = tryCatch
      ('(prompt, project, userId) ← destructure (body req);
       if negb (truthy userId) then
         mret (respond 400 (errorJson (js "Missing userId.")))
       else if negb (truthy prompt) || negb (isString prompt) then
         mret (respond 400
                 (errorJson (js "Invalid request: prompt required.")))
       else
         reply env (default JNull userId) (stringOf prompt) project)
      serverError w.
Proof.
  intros Hm. unfold handler. rewrite Hm.
  replace (streq (js "POST") (js "OPTIONS")) with false by (by vm_compute).
  by rewrite streq_refl.
Qed.

Lemma destructure_run o w :
  o <> JNull ->
  destructure (Some o) w
  = (Returned (getProp (js "prompt") o, getProp (js "project") o,
               getProp (js "userId") o), w).
Proof. intros H. by destruct o. Qed.

(** C5, as amended: a POST request whose body is an object (any value but
    undefined and null) and whose userId is missing or falsy is answered
    400 with exactly "Missing userId."; one whose userId is truthy and
    whose prompt is missing, empty or not a string is answered 400 with
    exactly "Invalid request: prompt required."; a request whose method is
    neither POST nor OPTIONS is answered 405; and in each of these cases
    the world is left as it was: no file is looked up, read or written. *)
Theorem C5_rejections env req w code message :
  Rejected req code message ->
  handler env req w = (Returned (respond code (errorJson message)), w).
Proof.
  intros [r o Hm Hb Hnn Hu | r o Hm Hb Hu Hp | r Hpost Hopt].
  - rewrite post_dispatch by done. rewrite Hb.
    erewrite catch_returned; [reflexivity |].
    erewrite bind_returned; [| by apply destructure_run].
    cbv beta iota. by rewrite Hu.
  - assert (o <> JNull) as Hnn by (intros ->; discriminate).
    rewrite post_dispatch by done. rewrite Hb.
    erewrite catch_returned; [reflexivity |].
    erewrite bind_returned; [| by apply destructure_run].
    cbv beta iota. rewrite Hu.
    by destruct Hp as [-> | ->]; rewrite ?orb_true_r.
  - unfold handler.
    apply streq_false in Hpost, Hopt. by rewrite Hopt, Hpost.
Qed.

Lemma C5_rejections_witness :
  handler (answering "ok") (post [(js "prompt", JStr (js "hi"))]) emptyStore
  = (Returned (respond 400 (errorJson (js "Missing userId."))), emptyStore)
  /\ handler (answering "ok")
       (post [(js "userId", JStr (js "u1")); (js "prompt", JStr [])])
       emptyStore
     = (Returned
          (respond 400 (errorJson (js "Invalid request: prompt required."))),
        emptyStore)
  /\ handler (answering "ok") (mkRequest (js "DELETE") None) emptyStore
     = (Returned (respond 405 (errorJson (js "Method not allowed"))),
        emptyStore).
Proof.
  split; [| split].
  - apply C5_rejections.
    eapply MissingUserId; [reflexivity | reflexivity | done | by vm_compute].
  - apply C5_rejections.
    eapply InvalidPrompt;
      [reflexivity | reflexivity | by vm_compute | left; by vm_compute].
  - apply C5_rejections.
    apply MethodNotAllowed; by vm_compute.
Defined.

(** C5 as stated fails: a GET request without userId is answered 405, not
    400; and a POST request without a body, hence without userId, is
    answered 500, the destructuring of line 83 having thrown. *)
Lemma C5_counterexample :
  (exists o,
     body (mkRequest (js "GET") (Some (JObj []))) = Some o
     /\ getProp (js "userId") o = None)
  /\ statusOf (handler (answering "ok")
                 (mkRequest (js "GET") (Some (JObj []))) emptyStore)
     = Some 405
  /\ body (mkRequest (js "POST") None) = None
  /\ statusOf (handler (answering "ok") (mkRequest (js "POST") None)
                 emptyStore)
     = Some 500.
Proof.
  split; [eexists; split; reflexivity |].
  split; [by vm_compute |]. split; [reflexivity | by vm_compute].
Qed.

(** ** Unreadable and ill-shaped memory files *)

Lemma load_default userId p w :
  memoryFile userId = Some p ->
  files w !! p = None \/ files w !! p = Some (File Garbled)
  \/ files w !! p = Some Dir ->
  (loadMemory userId w).1 = Returned (defaultMemory userId).
Proof.
  intros Hp Hcase. unfold loadMemory, memoryPath. rewrite Hp. run.
  destruct (validPath p); simpl; [| reflexivity].
  destruct Hcase as [Hw | [Hw | Hw]]; rewrite Hw; simpl; rewrite ?Hw;
    reflexivity.
Qed.

(** C6: for every userId whose memory file is absent, does not parse as
    JSON, or cannot be read, [loadMemory] returns the default template
    (the system turn alone in the conversation, lastProject and lastTask
    null) and leaves the files alone; the failure is not surfaced: a valid
    request of that user is answered 200 whenever the completion service
    answers. *)
Theorem C6_fail_soft_load userId p w :
  memoryFile userId = Some p ->
  files w !! p = None \/ files w !! p = Some (File Garbled)
  \/ files w !! p = Some Dir ->
  (exists w1,
     loadMemory userId w = (Returned (defaultMemory userId), w1)
     /\ files w1 = files w)
  /\ getProp (js "conversation") (defaultMemory userId)
     = Some (JArr [turn (js "system") SYSTEM_PROMPT])
  /\ getProp (js "lastProject") (defaultMemory userId) = Some JNull
  /\ getProp (js "lastTask") (defaultMemory userId) = Some JNull
  /\ forall env req prompt project content,
       accepted req userId prompt project ->
       complete env [turn (js "system") SYSTEM_PROMPT;
                     turn (js "user") prompt] = Replied content ->
       exists resp w',
         handler env req w = (Returned resp, w') /\ status resp = 200.
Proof.
  intros Hp Hcase. pose proof (load_default _ _ _ Hp Hcase) as Hload.
  split.
  { destruct (load_returned _ _ _ Hload) as (p' & w1 & _ & Hrun & Hf & _).
    eauto. }
  split; [reflexivity |]. split; [by vm_compute |]. split; [by vm_compute |].
  intros env req prompt project content Hacc Hc.
  destruct (handler_replied env req w userId prompt project p
              (defaultMemory userId) [turn (js "system") SYSTEM_PROMPT]
              content Hacc Hp Hload eq_refl Hc)
    as (props & w' & _ & Hrun & _).
  eauto.
Qed.

Lemma C6_fail_soft_load_witness :
  (exists w1,
     loadMemory (JStr (js "u1")) garbledStore
     = (Returned (defaultMemory (JStr (js "u1"))), w1)
     /\ files w1 = files garbledStore)
  /\ exists resp w',
       handler (answering "Sawa") (ask "u1" "Habari?") garbledStore
       = (Returned resp, w')
       /\ status resp = 200.
Proof.
  destruct (C6_fail_soft_load (JStr (js "u1"))
              (js "/tmp/memory/memory_u1.json") garbledStore)
    as (Hload & _ & _ & _ & Hreq).
  - by vm_compute.
  - right. left. by vm_compute.
  - split; [exact Hload |].
    apply (Hreq (answering "Sawa") (ask "u1" "Habari?") (js "Habari?") None
             (Some (js "Sawa"))).
    + apply accepted_ask; by vm_compute.
    + reflexivity.
Defined.

(** When the loaded value has no [conversation] array, [reply] throws
    before it reaches the completion service. *)
Lemma reply_mismatch env userId prompt project w v w1 :
  loadMemory userId w = (Returned v, w1) ->
  (forall items, getProp (js "conversation") v <> Some (JArr items)) ->
  exists e, reply env userId prompt project w = (Thrown e, w1).
Proof.
  intros Hload Hshape. unfold reply.
  rewrite (bind_returned _ _ _ _ _ Hload).
  destruct v as [| b | z | s | items | props].
  - destruct (truthy project); eexists; reflexivity.
  - destruct (truthy project); eexists; reflexivity.
  - destruct (truthy project); eexists; reflexivity.
  - destruct (truthy project); eexists; reflexivity.
  - destruct (truthy project); eexists; reflexivity.
  - set (ctx := if truthy project
                then assignProp (js "lastProject") (default JNull project)
                       props
                else props).
    erewrite bind_returned; cycle 1.
    { instantiate (1 := w1). instantiate (1 := JObj ctx).
      subst ctx. by destruct (truthy project). }
    erewrite bind_returned; [| reflexivity].
    assert (Hctx := contextUpdate_conversation prompt project props).
    fold ctx in Hctx. unfold getProp in Hshape.
    unfold mbind, M_bind, pushConversation, getProp.
    rewrite Hctx.
    destruct (lookupProp (js "conversation") props)
      as [[| | | | items |] |]; try (eexists; reflexivity).
    by destruct (Hshape items).
Qed.




(** ** The reply pipeline *)

Lemma matchesAt_prefix pat rest : matchesAt pat (pat ++ rest) = true.
Proof.
  induction pat as [| c pat IH]; simpl; [reflexivity |].
  by rewrite N.eqb_refl.
Qed.

Lemma search_prefix pat rest : search pat (pat ++ rest) = true.
Proof.
  destruct pat as [| c pat]; [by destruct rest |].
  change (matchesAt (c :: pat) ((c :: pat) ++ rest)
          || search (c :: pat) (pat ++ rest) = true).
  by rewrite matchesAt_prefix.
Qed.

Lemma addEmoji_kept random text :
  testClass emojiClass text = true -> addEmoji random text = text.
Proof. intros H. unfold addEmoji. by rewrite H. Qed.

Lemma addEmoji_missing random text :
  testClass emojiClass text = false ->
  addEmoji random text = text ++ js " " ++ pickEmoji random.
Proof. intros H. unfold addEmoji. by rewrite H. Qed.

(** [Math.random()] lies in [0, 1), so the index is one of the array. *)
Lemma pickEmoji_in random :
  (0 <= random)%Q -> (random < 1)%Q -> In (pickEmoji random) emojis.
Proof.
  intros H0 H1. unfold pickEmoji.
  change (inject_Z (Z.of_nat (List.length emojis))) with (inject_Z 10).
  set (i := Qfloor (random * inject_Z 10)).
  assert (Hlo : (0 <= i)%Z).
  { change 0%Z with (Qfloor (inject_Z 0)). apply Qfloor_resp_le.
    change (inject_Z 0) with (0 * inject_Z 10)%Q.
    by apply Qmult_le_compat_r. }
  assert (Hhi : (i < 10)%Z).
  { rewrite Zlt_Qlt. eapply Qle_lt_trans; [apply Qfloor_le |].
    change (inject_Z 10) with (1 * inject_Z 10)%Q at 2.
    by apply Qmult_lt_compat_r. }
  destruct (i <? 0)%Z eqn:E; [apply Z.ltb_lt in E; lia |].
  destruct (nth_error emojis (Z.to_nat i)) as [e |] eqn:En.
  - eapply nth_error_In, En.
  - apply nth_error_None in En.
    change (List.length emojis) with 10%nat in En. lia.
Qed.

Lemma includes_head c part text :
  includes (c :: part) text = true -> existsb (N.eqb c) text = true.
Proof.
  induction text as [| d text IH]; [discriminate |].
  simpl. intros H. apply orb_true_iff in H as [H | H].
  - apply andb_true_iff in H as [H _]. by rewrite H.
  - rewrite (IH H). apply orb_true_r.
Qed.

Lemma testClass_unit class c text :
  existsb (N.eqb c) class = true ->
  existsb (N.eqb c) text = true ->
  testClass class text = true.
Proof.
  intros Hc Ht. unfold testClass.
  apply existsb_exists in Ht as (d & Hin & Hd).
  apply N.eqb_eq in Hd. subst d.
  apply existsb_exists. eauto.
Qed.

(** A text that holds an approved glyph passes the emoji test, and gets
    nothing appended. *)
Lemma approved_glyph_kept random glyph text :
  In glyph approvedGlyphs ->
  includes glyph text = true ->
  addEmoji random text = text.
Proof.
  intros Hin Hinc. apply addEmoji_kept.
  assert (exists c rest,
             glyph = c :: rest /\ existsb (N.eqb c) emojiClass = true)
    as (c & rest & -> & Hc).
  { repeat (destruct Hin as [<- | Hin];
            [do 2 eexists; split; [by vm_compute | by vm_compute] |]).
    destruct Hin. }
  eapply testClass_unit; [exact Hc |]. by eapply includes_head.
Qed.

(** The final text of a present, non-empty completion is its sanitized
    text through the emoji step. *)
Lemma finalText_sanitized random text clean :
  text <> [] ->
  sanitize text = clean ->
  finalText random (Some text) = addEmoji random clean.
Proof.
  intros Hne <-. unfold finalText. by destruct text.
Qed.

Lemma search_addEmoji pat random rest :
  search pat (addEmoji random (pat ++ rest)) = true.
Proof.
  unfold addEmoji. destruct (negb (testClass emojiClass (pat ++ rest))).
  - rewrite <- app_assoc. apply search_prefix.
  - apply search_prefix.
Qed.

Lemma nested_phrase_sanitized :
  sanitize (js "as aas an ain ai") = js "as an ai".
Proof. by vm_compute. Qed.

Lemma spliced_phrase_sanitized :
  sanitize (js "as an i do not have feelingsai") = js "as an ai".
Proof. by vm_compute. Qed.

(** C2: the code breaks the claim.  On the completion text
    "as aas an ain ai" the one scan for "as an ai" removes the inner
    occurrence and so joins the outer pieces into the banned phrase; on
    "as an i do not have feelingsai" the removal of a later pattern does
    the same.  The final text, returned and stored, contains "as an ai",
    whatever emoji is appended. *)
Theorem C2_banned_phrase_survives random :
  sanitize (js "as aas an ain ai") = js "as an ai"
  /\ search (js "as an ai")
       (finalText random (Some (js "as aas an ain ai"))) = true
  /\ sanitize (js "as an i do not have feelingsai") = js "as an ai"
  /\ search (js "as an ai")
       (finalText random (Some (js "as an i do not have feelingsai")))
     = true.
Proof.
  split; [exact nested_phrase_sanitized |].
  split; [| split; [exact spliced_phrase_sanitized |]].
  - rewrite (finalText_sanitized random (js "as aas an ain ai") _
               ltac:(by vm_compute) nested_phrase_sanitized).
    rewrite <- (app_nil_r (js "as an ai")). apply search_addEmoji.
  - rewrite (finalText_sanitized random
               (js "as an i do not have feelingsai") _
               ltac:(by vm_compute) spliced_phrase_sanitized).
    rewrite <- (app_nil_r (js "as an ai")). apply search_addEmoji.
Qed.

Lemma unlisted_emoji_sanitized :
  sanitize (js "Pole sana 😢") = js "Pole sana 😢".
Proof. by vm_compute. Qed.

Lemma unlisted_emoji_tested :
  testClass emojiClass (js "Pole sana 😢") = true.
Proof. by vm_compute. Qed.

Lemma unlisted_emoji_not_approved :
  forallb (fun glyph => negb (includes glyph (js "Pole sana 😢")))
    approvedGlyphs = true.
Proof. by vm_compute. Qed.

(** C3: the code breaks the first half of the claim.  The text
    "Pole sana 😢" holds none of the approved glyphs, yet the emoji test,
    whose class is read code unit by code unit for want of the [u] flag,
    finds the high surrogate that 😢 shares with 😀, and the final text is
    the sanitized text with nothing appended. *)
Theorem C3_unlisted_emoji_passes random :
  forallb (fun glyph => negb (includes glyph (js "Pole sana 😢")))
    approvedGlyphs = true
  /\ sanitize (js "Pole sana 😢") = js "Pole sana 😢"
  /\ testClass emojiClass (js "Pole sana 😢") = true
  /\ finalText random (Some (js "Pole sana 😢")) = js "Pole sana 😢".
Proof.
  split; [exact unlisted_emoji_not_approved |].
  split; [exact unlisted_emoji_sanitized |].
  split; [exact unlisted_emoji_tested |].
  rewrite (finalText_sanitized random (js "Pole sana 😢") _
             ltac:(by vm_compute) unlisted_emoji_sanitized).
  apply addEmoji_kept, unlisted_emoji_tested.
Qed.

(** ** Memory files of distinct users *)

Lemma splitSlash_app cur s t :
  Path.splitSlash cur (s ++ Path.SLASH :: t)
  = Path.splitSlash cur s ++ Path.splitSlash [] t.
Proof.
  revert cur. induction s as [| c s IH]; intros cur; simpl.
  - reflexivity.
  - destruct (c =? Path.SLASH); simpl; by rewrite IH.
Qed.

Lemma splitSlash_plain cur s :
  ~ In Path.SLASH s -> Path.splitSlash cur s = [rev cur ++ s].
Proof.
  revert cur. induction s as [| c s IH]; intros cur Hs; simpl.
  - by rewrite app_nil_r.
  - destruct (c =? Path.SLASH) eqn:E.
    + apply N.eqb_eq in E. subst c. destruct Hs. by left.
    + rewrite IH; [| intros H; apply Hs; by right].
      simpl. by rewrite <- app_assoc.
Qed.

Lemma normalizeSegments_app above res l1 l2 :
  Path.normalizeSegments above res (l1 ++ l2)
  = Path.normalizeSegments above
      (rev (Path.normalizeSegments above res l1)) l2.
Proof.
  revert res. induction l1 as [| seg l1 IH]; intros res; simpl.
  - by rewrite rev_involutive.
  - destruct (streq seg [] || streq seg (js ".")); [apply IH |].
    destruct (streq seg (js "..")); [| apply IH].
    destruct res as [| top res']; [apply IH |].
    destruct (streq top (js "..")); apply IH.
Qed.

Lemma normalizeSegments_one above res seg :
  seg <> [] -> seg <> js "." -> seg <> js ".." ->
  Path.normalizeSegments above res [seg] = rev (seg :: res).
Proof.
  intros H0 H1 H2. apply streq_false in H0, H1, H2.
  simpl. by rewrite H0, H1, H2.
Qed.

Lemma endsWithSlash_plain s c seg :
  ~ In Path.SLASH (c :: seg) ->
  Path.endsWithSlash (s ++ Path.SLASH :: c :: seg) = false.
Proof.
  intros Hseg. unfold Path.endsWithSlash.
  change (s ++ Path.SLASH :: c :: seg) with (s ++ [Path.SLASH] ++ c :: seg).
  rewrite app_assoc, rev_app_distr.
  destruct (rev (c :: seg)) as [| d r] eqn:E.
  - apply (f_equal (@List.length N)) in E.
    rewrite length_rev in E. discriminate.
  - simpl. apply N.eqb_neq. intros ->. apply Hseg.
    apply in_rev. rewrite E. by left.
Qed.

(** Joining the memory directory and a plain file name puts a slash
    between them. *)
Lemma join_plain_name name :
  ~ In Path.SLASH name ->
  name <> [] -> name <> js "." -> name <> js ".." ->
  Path.join MEMORY_DIR name = MEMORY_DIR ++ Path.SLASH :: name.
Proof.
  intros Hplain Hne Hdot Hdots.
  replace MEMORY_DIR with (Path.SLASH :: js "tmp/memory") by (by vm_compute).
  destruct name as [| c name]; [done |].
  unfold Path.join, Path.normalize.
  change ((Path.SLASH :: js "tmp/memory") ++ Path.SLASH :: c :: name)
    with (Path.SLASH :: (js "tmp/memory" ++ Path.SLASH :: c :: name)).
  cbv beta iota zeta.
  change (Path.SLASH =? Path.SLASH) with true. cbv beta iota.
  change (Path.SLASH :: (js "tmp/memory" ++ Path.SLASH :: c :: name))
    with ((Path.SLASH :: js "tmp/memory") ++ Path.SLASH :: c :: name).
  rewrite (endsWithSlash_plain _ _ _ Hplain).
  rewrite splitSlash_app, (splitSlash_plain [] _ Hplain).
  change (negb true) with false.
  rewrite normalizeSegments_app.
  replace (Path.normalizeSegments false []
             (Path.splitSlash [] (Path.SLASH :: js "tmp/memory")))
    with [js "tmp"; js "memory"] by (by vm_compute).
  change (rev [] ++ c :: name) with (c :: name).
  rewrite (normalizeSegments_one _ _ _ Hne Hdot Hdots).
  change (rev ((c :: name) :: rev [js "tmp"; js "memory"]))
    with [js "tmp"; js "memory"; c :: name].
  unfold joinWith. simpl flat_map. rewrite app_nil_r. cbv iota.
  replace (js "tmp") with [116; 109; 112] by (by vm_compute).
  replace (js "memory") with [109; 101; 109; 111; 114; 121]
    by (by vm_compute).
  replace (js "tmp/memory")
    with [116; 109; 112; 47; 109; 101; 109; 111; 114; 121]
    by (by vm_compute).
  reflexivity.
Qed.

(** A user id without a slash is stored in the file of its own name. *)
Lemma memoryFile_plain id :
  ~ In Path.SLASH id ->
  memoryFile (JStr id)
  = Some ((MEMORY_DIR ++ Path.SLASH :: js "memory_") ++ id ++ js ".json").
Proof.
  intros Hid. unfold memoryFile. simpl toStr. cbv iota. f_equal.
  rewrite <- app_assoc.
  change ((Path.SLASH :: js "memory_") ++ id ++ js ".json")
    with (Path.SLASH :: js "memory_" ++ id ++ js ".json").
  apply join_plain_name.
  - intros H. apply in_app_or in H as [H | H].
    + revert H. vm_compute. intuition discriminate.
    + apply in_app_or in H as [H | H]; [by apply Hid |].
      revert H. vm_compute. intuition discriminate.
  - replace (js "memory_") with (109 :: js "emory_") by (by vm_compute).
    discriminate.
  - replace (js "memory_") with (109 :: js "emory_") by (by vm_compute).
    replace (js ".") with [46] by (by vm_compute). discriminate.
  - replace (js "memory_") with (109 :: js "emory_") by (by vm_compute).
    replace (js "..") with [46; 46] by (by vm_compute). discriminate.
Qed.


(** C9: the code breaks the claim.  The distinct user ids [a] and
    [x/../memory_a] are given the same file by [path.join], which resolves
    the dots; a request under the second id is sent the turns of user [a]
    as its context and overwrites the record of user [a]. *)
Theorem C9_users_share_a_file :
  js "a" <> js "x/../memory_a"
  /\ memoryFile (JStr (js "a")) = Some (js "/tmp/memory/memory_a.json")
  /\ memoryFile (JStr (js "x/../memory_a"))
     = Some (js "/tmp/memory/memory_a.json")
  /\ exists before resp w' after,
       stored aliceStore (js "/tmp/memory/memory_a.json") = Some before
       /\ getProp (js "userId") before = Some (JStr (js "a"))
       /\ getProp (js "conversation") before = Some (JArr aliceTurns)
       /\ handler (answering "Zuri 😊") (ask "x/../memory_a" "My project?")
            aliceStore
          = (Returned resp, w')
       /\ status resp = 200
       /\ In (CreateCompletion
                (aliceTurns ++ [turn (js "user") (js "My project?")]))
            (events w')
       /\ stored w' (js "/tmp/memory/memory_a.json") = Some after
       /\ getProp (js "userId") after = Some (JStr (js "a"))
       /\ getProp (js "conversation") after
          = Some (JArr (aliceTurns
                        ++ [ turn (js "user") (js "My project?");
                             turn (js "assistant") (js "Zuri 😊") ])).
Proof.
  split; [by vm_compute |]. split; [by vm_compute |].
  split; [by vm_compute |].
  do 4 eexists.
  split; [vm_compute; reflexivity |].
  split; [vm_compute; reflexivity |].
  split; [vm_compute; reflexivity |].
  split; [vm_compute; reflexivity |].
  split; [vm_compute; reflexivity |].
  split; [vm_compute; tauto |].
  split; [vm_compute; reflexivity |].
  split; vm_compute; reflexivity.
Qed.

(** ** Every run of the handler *)

Lemma save_events userId p memory w :
  memoryFile userId = Some p ->
  exists w1 evs,
    saveMemory userId memory w = (Returned tt, w1)
    /\ events w1 = events w ++ evs
    /\ forallb (fun e => negb (isCompletion e)) evs = true.
Proof.
  intros Hp. unfold saveMemory, memoryPath. rewrite Hp. run.
  unfold writeFileSync. destruct (canWrite w p); simpl.
  - do 2 eexists. split; [reflexivity |]. simpl. split; reflexivity.
  - do 2 eexists. split; [reflexivity |]. simpl.
    rewrite <- app_assoc. split; reflexivity.
Qed.

(** A request is answered without any effect, or its body cannot be
    destructured, or it is accepted. *)
Lemma handler_inv env req w :
  (exists resp, handler env req w = (Returned resp, w))
  \/ (exists e, handler env req w = serverError e w)
  \/ (exists userId prompt project, accepted req userId prompt project).
Proof.
  unfold handler.
  destruct (streq (method req) (js "OPTIONS")); [left; eauto |].
  destruct (streq (method req) (js "POST")) eqn:Hm; [| left; eauto].
  apply streq_true in Hm. simpl negb. cbv iota.
  destruct (body req) as [o |] eqn:Hb; [| right; left; eauto].
  destruct o as [| b | z | s | items | fields];
    try (left; eexists; reflexivity); [right; left; eauto |].
  destruct (truthy (lookupProp (js "userId") fields)) eqn:Hu;
    cycle 1.
  { left. eexists. unfold tryCatch, mbind, M_bind. simpl.
    by rewrite Hu. }
  destruct (negb (truthy (lookupProp (js "prompt") fields))
            || negb (isString (lookupProp (js "prompt") fields))) eqn:Hp.
  { left. eexists. unfold tryCatch, mbind, M_bind. simpl.
    by rewrite Hu, Hp. }
  right. right.
  apply orb_false_iff in Hp as [Hp1 Hp2].
  apply negb_false_iff in Hp1, Hp2.
  destruct (lookupProp (js "userId") fields) as [userId |] eqn:Eu;
    [| discriminate].
  destruct (lookupProp (js "prompt") fields) as [[| | | prompt | |] |] eqn:Ep;
    try discriminate.
  exists userId, prompt, (lookupProp (js "project") fields).
  split; [exact Hm |]. exists fields.
  repeat split; try assumption.
  intros ->. discriminate.
Qed.

(** The runs of [reply]: it throws before the completion service is
    called, or the service is called once and throws, or the service is
    called once and answers. *)
Lemma reply_inv env userId prompt project w :
  (exists e w1 evs,
     reply env userId prompt project w = (Thrown e, w1)
     /\ files w1 = files w
     /\ events w1 = events w ++ evs
     /\ forallb (fun e => negb (isWrite e) && negb (isCompletion e)) evs
        = true)
  \/ (exists items w1 evs,
        let context := items ++ [turn (js "user") prompt] in
        files w1 = files w
        /\ events w1 = events w ++ evs
        /\ forallb (fun e => negb (isWrite e) && negb (isCompletion e)) evs
           = true
        /\ ((exists message,
               complete env context = Failed message
               /\ reply env userId prompt project w
                  = (Thrown message, record (CreateCompletion context) w1))
            \/ (exists content resp w' evs',
                  complete env context = Replied content
                  /\ reply env userId prompt project w = (Returned resp, w')
                  /\ events w'
                     = events w1 ++ CreateCompletion context :: evs'
                  /\ forallb (fun e => negb (isCompletion e)) evs'
                     = true))).
Proof.
  destruct (memoryFile userId) as [p |] eqn:Hp; cycle 1.
  { left. exists (js "Cannot convert object to primitive value"), w, [].
    split; [| by rewrite app_nil_r].
    unfold reply, loadMemory, memoryPath. by rewrite Hp. }
  destruct (load_total userId p w Hp) as (memory & w1 & Hload & _).
  assert (Hl : (loadMemory userId w).1 = Returned memory)
    by (by rewrite Hload).
  destruct (load_returned _ _ _ Hl)
    as (p' & w1' & _ & Hload' & Hf & _ & evs & Hev & Hquiet).
  assert (w1' = w1) as -> by congruence.
  destruct (getProp (js "conversation") memory) as [[| | | | items |] |]
    eqn:Hconv;
    try (left;
         destruct (reply_mismatch env userId prompt project w memory w1
                     Hload) as [e He];
         [intros items'; rewrite Hconv; discriminate |];
         exists e, w1, evs; by repeat split).
  right. exists items, w1, evs. cbv zeta.
  repeat (split; [assumption |]).
  destruct memory as [| | | | | props]; try discriminate.
  destruct (complete env (items ++ [turn (js "user") prompt]))
    as [message | content] eqn:Hc.
  - left. exists message. split; [reflexivity |].
    by eapply reply_failed.
  - right.
    pose proof (reply_replied env userId p prompt project w props w1 items
                  content Hp Hload Hconv Hc) as Hrun.
    cbv zeta in Hrun.
    match type of Hrun with
    | context [saveMemory userId ?m ?w0] =>
        destruct (save_events userId p m w0 Hp)
          as (w2 & evs' & Hs & Hev' & Hquiet')
    end.
    rewrite Hs in Hrun. simpl in Hev'.
    exists content. do 2 eexists. exists evs'.
    split; [reflexivity |]. split; [exact Hrun |].
    split; [| exact Hquiet'].
    simpl. rewrite Hev'. by rewrite <- app_assoc.
Qed.

Lemma requestLog_run env req w r w' new :
  handler env req w = (r, w') ->
  events w' = events w ++ new ->
  requestLog env req w = new.
Proof.
  intros Hrun Hev. unfold requestLog. rewrite Hrun. simpl.
  rewrite Hev. apply drop_app_length.
Qed.

Lemma quiet_not_completion evs messages :
  forallb (fun e => negb (isWrite e) && negb (isCompletion e)) evs = true ->
  ~ In (CreateCompletion messages) evs.
Proof.
  intros Hq Hin. rewrite forallb_forall in Hq.
  apply Hq in Hin. discriminate.
Qed.

Lemma quiet_not_write evs :
  forallb (fun e => negb (isWrite e) && negb (isCompletion e)) evs = true ->
  forallb (fun e => negb (isWrite e)) evs = true.
Proof.
  rewrite !forallb_forall. intros Hq e Hin.
  apply Hq in Hin. by apply andb_true_iff in Hin as [-> _].
Qed.

(** C7: for every request in which the completion service is called and
    throws, the handler answers 500 with the error "Server error. Check
    backend logs." and the thrown message as details; the files are
    exactly what they were before the request and the request performs no
    write: [saveMemory] comes only after the whole pipeline, so the user
    turn pushed in memory before the failure is never saved. *)
Theorem C7_service_failure env req w messages message :
  In (CreateCompletion messages) (requestLog env req w) ->
  complete env messages = Failed message ->
  exists w',
    handler env req w
    = (Returned (respond 500 (Some (serverErrorJson message))), w')
    /\ files w' = files w
    /\ forallb (fun e => negb (isWrite e)) (requestLog env req w) = true.
Proof.
  intros Hin Hfail.
  destruct (handler_inv env req w)
    as [[resp Hrun] | [[e Hrun] | (userId & prompt & project & Hacc)]].
  - rewrite (requestLog_run _ _ _ _ _ [] Hrun) in Hin;
      [destruct Hin | by rewrite app_nil_r].
  - rewrite serverError_run in Hrun.
    rewrite (requestLog_run _ _ _ _ _ _ Hrun eq_refl) in Hin.
    destruct Hin as [Hin | []]. discriminate.
  - pose proof (handler_accepted env _ _ _ _ w Hacc) as Hrun.
    destruct (reply_inv env userId prompt project w)
      as [(e & w1 & evs & Hreply & Hf & Hev & Hq)
         | (items & w1 & evs & Hf & Hev & Hq & Hcall)].
    + rewrite (catch_thrown _ _ _ _ _ Hreply), serverError_run in Hrun.
      erewrite requestLog_run in Hin; [| exact Hrun |]; cycle 1.
      { simpl. rewrite Hev. by rewrite <- app_assoc. }
      apply in_app_or in Hin as [Hin | [Hin | []]]; [| discriminate].
      by destruct (quiet_not_completion _ _ Hq Hin).
    + cbv zeta in Hcall.
      destruct Hcall
        as [(message' & Hc & Hreply)
           | (content & resp & w' & evs' & Hc & Hreply & Hev' & Hq')].
      * rewrite (catch_thrown _ _ _ _ _ Hreply), serverError_run in Hrun.
        assert (Hlog : requestLog env req w
                       = evs ++ [CreateCompletion
                                   (items ++ [turn (js "user") prompt]);
                                 ConsoleError (js "Chat error:") message']).
        { eapply requestLog_run; [exact Hrun |].
          simpl. rewrite Hev. by rewrite <- !app_assoc. }
        rewrite Hlog in Hin |- *.
        apply in_app_or in Hin as [Hin | [Hin | [Hin | []]]];
          [by destruct (quiet_not_completion _ _ Hq Hin) | | discriminate].
        injection Hin as <-.
        assert (message' = message) as -> by congruence.
        eexists. split; [exact Hrun |]. split; [exact Hf |].
        rewrite forallb_app, (quiet_not_write _ Hq). reflexivity.
      * rewrite (catch_returned _ _ _ _ _ Hreply) in Hrun.
        erewrite requestLog_run in Hin; [| exact Hrun |]; cycle 1.
        { rewrite Hev', Hev. by rewrite <- app_assoc. }
        apply in_app_or in Hin as [Hin | [Hin | Hin]].
        -- by destruct (quiet_not_completion _ _ Hq Hin).
        -- injection Hin as <-. congruence.
        -- rewrite forallb_forall in Hq'. apply Hq' in Hin. discriminate.
Qed.

Lemma C7_service_failure_witness :
  exists w',
    handler (failing "timeout") (ask "u1" "Tena?") afterFirst
    = (Returned (respond 500 (Some (serverErrorJson (js "timeout")))), w')
    /\ files w' = files afterFirst
    /\ forallb (fun e => negb (isWrite e))
         (requestLog (failing "timeout") (ask "u1" "Tena?") afterFirst)
       = true.
Proof.
  apply (C7_service_failure (failing "timeout") (ask "u1" "Tena?")
           afterFirst (firstTurns ++ [turn (js "user") (js "Tena?")])
           (js "timeout")).
  - vm_compute. tauto.
  - reflexivity.
Defined.

(** ** Every request, whatever it is *)

Lemma save_cases userId p memory w :
  memoryFile userId = Some p ->
  (canWrite w p = true
   /\ saveMemory userId memory w
      = (Returned tt,
         mkWorld (<[p := File (Json memory)]> (files w)) (permits w)
           (events w ++ [WriteFileSync p memory])))
  \/ (canWrite w p = false
      /\ exists what err,
           saveMemory userId memory w
           = (Returned tt,
              mkWorld (files w) (permits w)
                (events w ++ [WriteFileSync p memory;
                              ConsoleError what err]))).
Proof.
  intros Hp. unfold saveMemory, memoryPath. rewrite Hp. run.
  unfold writeFileSync. destruct (canWrite w p); simpl.
  - left. by split.
  - right. split; [reflexivity |]. do 2 eexists.
    unfold record. simpl. by rewrite <- app_assoc.
Qed.

Lemma quiet_counts evs :
  forallb (fun e => negb (isWrite e) && negb (isCompletion e)) evs = true ->
  countEvents isWrite evs = 0%nat /\ countEvents isCompletion evs = 0%nat.
Proof.
  unfold countEvents. induction evs as [| e evs IH]; simpl; [done |].
  intros H. apply andb_true_iff in H as [He H].
  apply andb_true_iff in He as [Hw Hc].
  apply negb_true_iff in Hw, Hc. rewrite Hw, Hc. by apply IH.
Qed.

Lemma countEvents_app kind evs1 evs2 :
  countEvents kind (evs1 ++ evs2)
  = (countEvents kind evs1 + countEvents kind evs2)%nat.
Proof. unfold countEvents. by rewrite List.filter_app, length_app. Qed.

(** A request is answered at once with 200, 400 or 405 and no effect,
    or its body cannot be destructured, or it is accepted. *)
Lemma handler_dispatch env req w :
  (exists code payload,
     (code = 200 \/ code = 400 \/ code = 405)
     /\ handler env req w = (Returned (respond code payload), w))
  \/ (exists e, handler env req w = serverError e w)
  \/ (exists userId prompt project, accepted req userId prompt project).
Proof.
  unfold handler.
  destruct (streq (method req) (js "OPTIONS")); [left; eauto 6 |].
  destruct (streq (method req) (js "POST")) eqn:Hm; [| left; eauto 8].
  apply streq_true in Hm. simpl negb. cbv iota.
  destruct (body req) as [o |] eqn:Hb; [| right; left; eauto].
  destruct o as [| b | z | s | items | fields];
    try (left; do 2 eexists; split; [| reflexivity]; tauto);
    [right; left; eauto |].
  destruct (truthy (lookupProp (js "userId") fields)) eqn:Hu;
    cycle 1.
  { left. do 2 eexists. split; cycle 1.
    - unfold tryCatch, mbind, M_bind. simpl. by rewrite Hu.
    - tauto. }
  destruct (negb (truthy (lookupProp (js "prompt") fields))
            || negb (isString (lookupProp (js "prompt") fields))) eqn:Hp.
  { left. do 2 eexists. split; cycle 1.
    - unfold tryCatch, mbind, M_bind. simpl. by rewrite Hu, Hp.
    - tauto. }
  right. right.
  apply orb_false_iff in Hp as [Hp1 Hp2].
  apply negb_false_iff in Hp1, Hp2.
  destruct (lookupProp (js "userId") fields) as [userId |] eqn:Eu;
    [| discriminate].
  destruct (lookupProp (js "prompt") fields) as [[| | | prompt | |] |] eqn:Ep;
    try discriminate.
  exists userId, prompt, (lookupProp (js "project") fields).
  split; [exact Hm |]. exists fields.
  repeat split; try assumption.
  intros ->. discriminate.
Qed.

(** The three ways a request can go: answered at once, without any
    effect; answered 500 after an exception, the files untouched; or
    answered 200 after the completion service replied, the save being the
    last step. *)
Lemma handler_cases env req w :
  (exists code payload,
     (code = 200 \/ code = 400 \/ code = 405)
     /\ handler env req w = (Returned (respond code payload), w))
  \/ (exists e w1 evs,
        handler env req w
        = (Returned (respond 500 (Some (serverErrorJson e))),
           record (ConsoleError (js "Chat error:") e) w1)
        /\ files w1 = files w /\ permits w1 = permits w
        /\ events w1 = events w ++ evs
        /\ countEvents isWrite evs = 0%nat
        /\ (countEvents isCompletion evs <= 1)%nat)
  \/ (exists userId prompt project p props items content w1 evs,
        accepted req userId prompt project
        /\ memoryFile userId = Some p
        /\ loadMemory userId w = (Returned (JObj props), w1)
        /\ lookupProp (js "conversation") props = Some (JArr items)
        /\ complete env (items ++ [turn (js "user") prompt])
           = Replied content
        /\ files w1 = files w /\ permits w1 = permits w
        /\ events w1 = events w ++ evs
        /\ countEvents isWrite evs = 0%nat
        /\ countEvents isCompletion evs = 0%nat
        /\ let text := finalText (random env) content in
           let memory := JObj (committed prompt project text items props) in
           handler env req w
           = (Returned (respond 200 (Some (replyJson text memory))),
              (saveMemory userId memory
                 (record
                    (CreateCompletion (items ++ [turn (js "user") prompt]))
                    w1)).2)).
Proof.
  destruct (handler_dispatch env req w)
    as [Hsilent | [[e Hrun] | (userId & prompt & project & Hacc)]].
  - by left.
  - right. left. rewrite serverError_run in Hrun.
    exists e, w, []. rewrite app_nil_r. repeat split; try done.
    unfold countEvents. simpl. lia.
  - pose proof (handler_accepted env _ _ _ _ w Hacc) as Hrun.
    destruct (memoryFile userId) as [p |] eqn:Hp; cycle 1.
    { right. left.
      exists (js "Cannot convert object to primitive value"), w, [].
      rewrite app_nil_r. split.
      - rewrite Hrun. erewrite catch_thrown; [apply serverError_run |].
        unfold reply, loadMemory, memoryPath. by rewrite Hp.
      - repeat split; try done; unfold countEvents; simpl; lia. }
    destruct (load_total userId p w Hp) as (memory & w1 & Hload & _).
    assert (Hl : (loadMemory userId w).1 = Returned memory)
      by (by rewrite Hload).
    destruct (load_returned _ _ _ Hl)
      as (p' & w1' & _ & Hload' & Hf & Hperm & evs & Hev & Hquiet).
    assert (w1' = w1) as -> by congruence.
    destruct (quiet_counts _ Hquiet) as [Hnw Hnc].
    destruct (getProp (js "conversation") memory) as [[| | | | items |] |]
      eqn:Hconv;
      try (right; left;
           destruct (reply_mismatch env userId prompt project w memory w1
                       Hload) as [e He];
           [intros items'; rewrite Hconv; discriminate |];
           exists e, w1, evs;
           split;
           [rewrite Hrun; erewrite catch_thrown;
            [apply serverError_run | exact He] |];
           repeat split; try done; lia).
    destruct memory as [| | | | | props]; try discriminate.
    destruct (complete env (items ++ [turn (js "user") prompt]))
      as [message | content] eqn:Hc.
    + right. left.
      exists message,
        (record (CreateCompletion (items ++ [turn (js "user") prompt])) w1),
        (evs ++ [CreateCompletion (items ++ [turn (js "user") prompt])]).
      split.
      { rewrite Hrun. erewrite catch_thrown; [apply serverError_run |].
        by eapply reply_failed. }
      simpl. rewrite Hev, <- app_assoc, !countEvents_app, Hnw, Hnc.
      repeat split; try done; unfold countEvents; simpl; lia.
    + right. right.
      exists userId, prompt, project, p, props, items, content, w1, evs.
      repeat (split; [done |]). cbv zeta.
      rewrite Hrun. erewrite catch_returned; [reflexivity |].
      by eapply (reply_replied env userId p).
Qed.

(** The handler catches everything: whatever the request, the store and
    the completion service, it returns an answer, whose status is 200,
    400, 405 or 500 and whose headers are the four headers set on entry. *)
Theorem handler_always_answers env req w :
  exists resp w',
    handler env req w = (Returned resp, w')
    /\ (status resp = 200 \/ status resp = 400 \/ status resp = 405
        \/ status resp = 500)
    /\ headers resp = corsHeaders.
Proof.
  destruct (handler_cases env req w)
    as [(code & payload & Hcode & Hrun)
       | [(e & w1 & evs & Hrun & _)
         | (userId & prompt & project & p & props & items & content & w1
            & evs & _ & _ & _ & _ & _ & _ & _ & _ & _ & _ & Hrun)]].
  - do 2 eexists. split; [exact Hrun |]. split; [simpl; tauto | done].
  - do 2 eexists. split; [exact Hrun |]. split; [simpl; tauto | done].
  - cbv zeta in Hrun. do 2 eexists. split; [exact Hrun |].
    split; [simpl; tauto | done].
Qed.

(** No retry and no stray write: a request calls the completion service at
    most once, and it writes at most once, only after that call. *)
Theorem one_call_then_one_write env req w :
  (countEvents isCompletion (requestLog env req w) <= 1)%nat
  /\ (countEvents isWrite (requestLog env req w)
      <= countEvents isCompletion (requestLog env req w))%nat.
Proof.
  destruct (handler_cases env req w)
    as [(code & payload & Hcode & Hrun)
       | [(e & w1 & evs & Hrun & _ & _ & Hev & Hnw & Hnc)
         | (userId & prompt & project & p & props & items & content & w1
            & evs & _ & Hp & _ & _ & _ & _ & _ & Hev & Hnw & Hnc & Hrun)]].
  - rewrite (requestLog_run _ _ _ _ _ [] Hrun) by (by rewrite app_nil_r).
    unfold countEvents. simpl. lia.
  - erewrite requestLog_run; [| exact Hrun |]; cycle 1.
    { simpl. rewrite Hev. by rewrite <- app_assoc. }
    rewrite !countEvents_app, Hnw. unfold countEvents in *. simpl. lia.
  - cbv zeta in Hrun.
    match type of Hrun with
    | context [saveMemory userId ?m ?w0] =>
        destruct (save_cases userId p m w0 Hp)
          as [[_ Hs] | (_ & what & err & Hs)]
    end; rewrite Hs in Hrun; simpl in Hrun;
      (erewrite requestLog_run; [| exact Hrun |]; cycle 1;
       [simpl; rewrite Hev; rewrite <- !app_assoc; reflexivity |]);
      rewrite !countEvents_app, Hnw, Hnc; unfold countEvents; simpl; lia.
Qed.


(** ** The answer and the file system *)

Lemma steady_ret {A : Type} (a : A) : steady (mret a).
Proof. by intros w1 w2 H. Qed.

Lemma steady_throw {A : Type} e : steady (@throw A e).
Proof. by intros w1 w2 H. Qed.

Lemma steady_emit e : steady (emit e).
Proof. by intros w1 w2 H. Qed.

Lemma steady_bind {A B : Type} (c : M A) (f : A -> M B) :
  steady c -> (forall a, steady (f a)) -> steady (c ≫= f).
Proof.
  intros Hc Hf w1 w2 H. unfold mbind, M_bind.
  destruct (Hc w1 w2 H) as [Ho Hw].
  destruct (c w1) as [[a1 | e1] w1'], (c w2) as [[a2 | e2] w2'];
    simpl in *; try discriminate.
  - injection Ho as <-. by apply Hf.
  - by injection Ho as <-.
Qed.

Lemma steady_catch {A : Type} (c : M A) h :
  steady c -> (forall e, steady (h e)) -> steady (tryCatch c h).
Proof.
  intros Hc Hh w1 w2 H. unfold tryCatch.
  destruct (Hc w1 w2 H) as [Ho Hw].
  destruct (c w1) as [[a1 | e1] w1'], (c w2) as [[a2 | e2] w2'];
    simpl in *; try discriminate.
  - by injection Ho as <-.
  - injection Ho as <-. by apply Hh.
Qed.

Lemma steady_loadMemory userId : steady (loadMemory userId).
Proof.
  unfold loadMemory. apply steady_bind.
  { unfold memoryPath. destruct (memoryFile userId);
      [apply steady_ret | apply steady_throw]. }
  intros p. apply steady_bind.
  - apply steady_catch.
    + apply steady_bind.
      * intros w1 w2 H. unfold existsSync, agree in *. simpl.
        by rewrite H.
      * intros [|]; [| apply steady_ret].
        apply steady_bind.
        -- intros w1 w2 H. unfold readFileSync, agree in *. simpl.
           by rewrite H.
        -- intros c. apply steady_bind; [| intros v; apply steady_ret].
           destruct c; [apply steady_throw | apply steady_ret].
    + intros e. apply steady_bind; [apply steady_emit |].
      intros _. apply steady_ret.
  - intros [v |]; apply steady_ret.
Qed.

Lemma steady_setField k v target : steady (setField k v target).
Proof. destruct target; first [apply steady_ret | apply steady_throw]. Qed.

Lemma steady_pushConversation t memory : steady (pushConversation t memory).
Proof.
  unfold pushConversation.
  destruct memory as [| | | | | props]; try apply steady_throw;
    simpl; try apply steady_throw.
  destruct (lookupProp (js "conversation") props) as [[| | | | |] |];
    first [apply steady_ret | apply steady_throw].
Qed.

Lemma steady_createCompletion env messages :
  steady (createCompletion env messages).
Proof.
  unfold createCompletion. apply steady_bind; [apply steady_emit |].
  intros _. destruct (complete env messages);
    [apply steady_throw | apply steady_ret].
Qed.

Lemma sameAnswer_bind {A B : Type} (c : M A) (f : A -> M B) :
  steady c -> (forall a, sameAnswer (f a)) -> sameAnswer (c ≫= f).
Proof.
  intros Hc Hf w1 w2 H. unfold mbind, M_bind.
  destruct (Hc w1 w2 H) as [Ho Hw].
  destruct (c w1) as [[a1 | e1] w1'], (c w2) as [[a2 | e2] w2'];
    simpl in *; try discriminate.
  - injection Ho as <-. by apply Hf.
  - by injection Ho as <-.
Qed.

(** The save never decides the answer: written or not, what follows it
    returns the same. *)
Lemma sameAnswer_save {A : Type} userId memory (a : A) :
  sameAnswer (saveMemory userId memory ≫= fun _ => mret a).
Proof.
  intros w1 w2 _. unfold mbind, M_bind.
  destruct (memoryFile userId) as [p |] eqn:Hp.
  - destruct (save_total userId p memory w1 Hp) as [w1' ->].
    by destruct (save_total userId p memory w2 Hp) as [w2' ->].
  - unfold saveMemory, memoryPath, mbind, M_bind. by rewrite Hp.
Qed.

Lemma sameAnswer_reply env userId prompt project :
  sameAnswer (reply env userId prompt project).
Proof.
  unfold reply.
  apply sameAnswer_bind; [apply steady_loadMemory |]. intros m0.
  apply sameAnswer_bind.
  { destruct (truthy project); [apply steady_setField | apply steady_ret]. }
  intros m1. apply sameAnswer_bind; [apply steady_setField |]. intros m2.
  apply sameAnswer_bind; [apply steady_pushConversation |]. intros m3.
  apply sameAnswer_bind; [apply steady_createCompletion |]. intros content.
  cbv zeta.
  apply sameAnswer_bind; [apply steady_pushConversation |]. intros m4.
  apply sameAnswer_save.
Qed.

(** Fail-soft write, seen from the caller: the answer of the handler is
    decided by the request, the completion service and the stored files;
    whether the file system accepts writes, and what was logged before,
    never changes it. *)
Theorem answer_ignores_write_failures env req w1 w2 :
  files w1 = files w2 ->
  (handler env req w1).1 = (handler env req w2).1.
Proof.
  intros H. unfold handler.
  destruct (streq (method req) (js "OPTIONS")); [done |].
  destruct (negb (streq (method req) (js "POST"))); [done |].
  unfold tryCatch.
  match goal with
  | |- (match ?c w1 with _ => _ end).1 = _ =>
      assert (Hin : sameAnswer c);
        [| specialize (Hin w1 w2 H);
           destruct (c w1) as [[a1 | e1] w1'], (c w2) as [[a2 | e2] w2'];
           simpl in *; try discriminate; congruence]
  end.
  apply sameAnswer_bind.
  - unfold destructure.
    destruct (body req) as [[| | | | |] |];
      first [apply steady_ret | apply steady_throw].
  - intros [[prompt project] userId].
    destruct (negb (truthy userId)); [by intros ? ? ? |].
    destruct (negb (truthy prompt) || negb (isString prompt));
      [by intros ? ? ? |].
    apply sameAnswer_reply.
Qed.

Lemma answer_ignores_write_failures_witness :
  (handler (answering "Sawa") (ask "u1" "Habari?") emptyStore).1
  = (handler (answering "Sawa") (ask "u1" "Habari?") fullStore).1.
Proof.
  apply (answer_ignores_write_failures (answering "Sawa")
           (ask "u1" "Habari?") emptyStore fullStore).
  reflexivity.
Defined.

(** ** More on the reply pipeline *)

Lemma replaceScan_clean pat text :
  search pat text = false -> replaceScan pat 0 text = text.
Proof.
  induction text as [| c text IH]; [done |].
  intros H. change (matchesAt pat (c :: text) || search pat text = false) in H.
  apply orb_false_iff in H as [Hm Hs].
  change (replaceScan pat 0 (c :: text))
    with (if matchesAt pat (c :: text)
          then replaceScan pat (Nat.pred (List.length pat)) text
          else c :: replaceScan pat 0 text).
  rewrite Hm. by rewrite IH.
Qed.

(** A completion text in which no banned phrase occurs, in any letter
    case, goes through the sanitizer unchanged. *)
Theorem sanitize_clean text :
  forallb (fun pattern => negb (search pattern text)) bannedPatterns = true ->
  sanitize text = text.
Proof.
  unfold sanitize. generalize bannedPatterns as patterns.
  induction patterns as [| pattern patterns IH]; [done |].
  simpl. intros H. apply andb_true_iff in H as [Hp Hrest].
  apply negb_true_iff in Hp.
  unfold replaceAll. rewrite (replaceScan_clean _ _ Hp). by apply IH.
Qed.

Lemma clean_text_example :
  forallb (fun pattern => negb (search pattern (js "Sawa, twende kazi! 😊")))
    bannedPatterns = true.
Proof. by vm_compute. Qed.

Lemma sanitize_clean_witness :
  sanitize (js "Sawa, twende kazi! 😊") = js "Sawa, twende kazi! 😊".
Proof.
  apply (sanitize_clean (js "Sawa, twende kazi! 😊")).
  exact clean_text_example.
Defined.

Lemma replaceScan_sublist pat skip text :
  replaceScan pat skip text `sublist_of` text.
Proof.
  revert skip. induction text as [| c text IH]; intros skip.
  - constructor.
  - destruct skip as [| k].
    + change (replaceScan pat 0 (c :: text))
        with (if matchesAt pat (c :: text)
              then replaceScan pat (Nat.pred (List.length pat)) text
              else c :: replaceScan pat 0 text).
      destruct (matchesAt pat (c :: text)).
      * apply sublist_cons, IH.
      * apply sublist_skip, IH.
    + apply sublist_cons, IH.
Qed.

Lemma fold_replace_sublist patterns text :
  fold_left (fun t pattern => replaceAll pattern t) patterns text
  `sublist_of` text.
Proof.
  revert text. induction patterns as [| pattern patterns IH];
    intros text; [done |].
  simpl. etransitivity; [apply IH |]. apply replaceScan_sublist.
Qed.

(** The sanitizer only deletes: what it returns is the completion text
    with some code units left out, the others in their order; it never
    inserts or changes one, and so never lengthens the text. *)
Theorem sanitize_only_deletes text :
  sanitize text `sublist_of` text
  /\ (List.length (sanitize text) <= List.length text)%nat.
Proof.
  assert (H : sanitize text `sublist_of` text)
    by apply fold_replace_sublist.
  split; [exact H |]. by apply sublist_length.
Qed.

Lemma canonicalize_idempotent c :
  canonicalize (canonicalize c) = canonicalize c.
Proof.
  unfold canonicalize.
  destruct ((97 <=? c) && (c <=? 122)) eqn:E; [| by rewrite E].
  apply andb_true_iff in E as [H1 H2].
  apply N.leb_le in H1, H2.
  replace (97 <=? c - 32) with false; [done |].
  symmetry. apply N.leb_gt. lia.
Qed.

Lemma matchesAt_canonical pat text :
  matchesAt pat (map canonicalize text) = matchesAt pat text.
Proof.
  revert text. induction pat as [| p pat IH]; intros [| c text]; simpl;
    try done.
  by rewrite canonicalize_idempotent, IH.
Qed.

Lemma replaceScan_canonical pat skip text :
  replaceScan pat skip (map canonicalize text)
  = map canonicalize (replaceScan pat skip text).
Proof.
  revert skip. induction text as [| c text IH]; intros skip; [done |].
  destruct skip as [| k]; [| apply IH].
  change (replaceScan pat 0 (map canonicalize (c :: text)))
    with (if matchesAt pat (map canonicalize (c :: text))
          then replaceScan pat (Nat.pred (List.length pat))
                 (map canonicalize text)
          else canonicalize c :: replaceScan pat 0 (map canonicalize text)).
  change (replaceScan pat 0 (c :: text))
    with (if matchesAt pat (c :: text)
          then replaceScan pat (Nat.pred (List.length pat)) text
          else c :: replaceScan pat 0 text).
  rewrite matchesAt_canonical.
  destruct (matchesAt pat (c :: text)); [apply IH |].
  simpl. by rewrite IH.
Qed.

(** The sanitizer is blind to the case of ASCII letters: upper-casing the
    completion text and sanitizing it gives the sanitized text,
    upper-cased; the same occurrences are removed. *)
Theorem sanitize_case_blind text :
  sanitize (map canonicalize text) = map canonicalize (sanitize text).
Proof.
  unfold sanitize. generalize bannedPatterns as patterns.
  intros patterns. revert text.
  induction patterns as [| pattern patterns IH]; intros text; [done |].
  simpl. unfold replaceAll. by rewrite replaceScan_canonical, IH.
Qed.

Lemma testClass_app class text1 text2 :
  testClass class (text1 ++ text2)
  = testClass class text1 || testClass class text2.
Proof. unfold testClass. apply existsb_app. Qed.

Lemma emojis_pass_test :
  forallb (testClass emojiClass) emojis = true.
Proof. by vm_compute. Qed.

(** The emoji guarantee as the code gives it: whatever the completion,
    the final text passes the emoji test of line 122, so running the emoji
    step again would add nothing. *)
Theorem finalText_has_emoji random content :
  (0 <= random)%Q -> (random < 1)%Q ->
  testClass emojiClass (finalText random content) = true
  /\ addEmoji random (finalText random content) = finalText random content.
Proof.
  intros H0 H1.
  assert (H : testClass emojiClass (finalText random content) = true).
  { unfold finalText, addEmoji.
    destruct (testClass emojiClass (sanitize (replyText content))) eqn:E;
      [exact E |].
    simpl negb. cbv iota. rewrite !testClass_app.
    pose proof (pickEmoji_in random H0 H1) as Hin.
    pose proof emojis_pass_test as Hall.
    rewrite forallb_forall in Hall. rewrite (Hall _ Hin).
    by rewrite !orb_true_r. }
  split; [exact H | by apply addEmoji_kept].
Qed.

Lemma finalText_has_emoji_witness :
  testClass emojiClass (finalText (3 # 10) (Some (js "Sawa"))) = true
  /\ addEmoji (3 # 10) (finalText (3 # 10) (Some (js "Sawa")))
     = finalText (3 # 10) (Some (js "Sawa")).
Proof.
  apply (finalText_has_emoji (3 # 10) (Some (js "Sawa"))).
  - by vm_compute.
  - by vm_compute.
Defined.

Lemma fallback_sanitized :
  sanitize (js "No reply generated.") = js "No reply generated.".
Proof. by vm_compute. Qed.

Lemma fallback_untested :
  testClass emojiClass (js "No reply generated.") = false.
Proof. by vm_compute. Qed.

(** An absent completion content and an empty one get the same final
    text: the fallback "No reply generated.", a space and the emoji
    picked. *)
Theorem finalText_fallback random :
  finalText random None
  = js "No reply generated." ++ js " " ++ pickEmoji random
  /\ finalText random (Some [])
     = js "No reply generated." ++ js " " ++ pickEmoji random.
Proof.
  assert (H : addEmoji random (sanitize (js "No reply generated."))
              = js "No reply generated." ++ js " " ++ pickEmoji random).
  { rewrite fallback_sanitized. apply addEmoji_missing, fallback_untested. }
  by split.
Qed.

(** The emoji step, case by case: a text with a code unit of the class is
    returned as it is; any other text is returned followed by one space
    and one of the ten emojis of the array. *)
Theorem addEmoji_cases random text :
  (0 <= random)%Q -> (random < 1)%Q ->
  (testClass emojiClass text = true /\ addEmoji random text = text)
  \/ (testClass emojiClass text = false
      /\ exists emoji,
           In emoji emojis /\ addEmoji random text = text ++ js " " ++ emoji).
Proof.
  intros H0 H1. destruct (testClass emojiClass text) eqn:E.
  - left. split; [reflexivity | by apply addEmoji_kept].
  - right. split; [reflexivity |]. exists (pickEmoji random).
    split; [by apply pickEmoji_in | by apply addEmoji_missing].
Qed.

Lemma addEmoji_cases_witness :
  (testClass emojiClass (js "Sawa") = true
   /\ addEmoji (3 # 10) (js "Sawa") = js "Sawa")
  \/ (testClass emojiClass (js "Sawa") = false
      /\ exists emoji,
           In emoji emojis
           /\ addEmoji (3 # 10) (js "Sawa") = js "Sawa" ++ js " " ++ emoji).
Proof.
  apply (addEmoji_cases (3 # 10) (js "Sawa")).
  - by vm_compute.
  - by vm_compute.
Defined.

Lemma approved_glyph_kept_witness :
  addEmoji (3 # 10) (js "Poa 🚀 kabisa") = js "Poa 🚀 kabisa".
Proof.
  apply (approved_glyph_kept (3 # 10) (js "🚀") (js "Poa 🚀 kabisa")).
  - vm_compute. tauto.
  - by vm_compute.
Defined.

(** ** Saving and loading *)

(** Round trip: a memory that [saveMemory] wrote is what [loadMemory]
    returns next, and a second save replaces the first (the last write
    wins). *)
Theorem save_then_load userId p memory1 memory2 w :
  memoryFile userId = Some p ->
  canWrite w p = true ->
  (loadMemory userId (saveMemory userId memory1 w).2).1 = Returned memory1
  /\ (loadMemory userId
        (saveMemory userId memory2 (saveMemory userId memory1 w).2).2).1
     = Returned memory2.
Proof.
  intros Hp Hw.
  rewrite (save_written userId p memory1 w Hp Hw). cbn [snd].
  set (w1 := mkWorld _ _ _).
  assert (Hw1 : canWrite w1 p = true) by (by apply canWrite_again).
  split.
  - rewrite (load_json userId p w1 memory1 Hp (canWrite_valid _ _ Hw)).
    + reflexivity.
    + apply lookup_insert_eq.
  - rewrite (save_written userId p memory2 w1 Hp Hw1). cbn [snd].
    rewrite (load_json userId p _ memory2 Hp (canWrite_valid _ _ Hw)).
    + reflexivity.
    + apply lookup_insert_eq.
Qed.

Lemma save_then_load_witness :
  (loadMemory (JStr (js "u1"))
     (saveMemory (JStr (js "u1")) (JNum 1) emptyStore).2).1
  = Returned (JNum 1)
  /\ (loadMemory (JStr (js "u1"))
        (saveMemory (JStr (js "u1")) (JNum 2)
           (saveMemory (JStr (js "u1")) (JNum 1) emptyStore).2).2).1
     = Returned (JNum 2).
Proof.
  apply (save_then_load (JStr (js "u1")) (js "/tmp/memory/memory_u1.json")
           (JNum 1) (JNum 2) emptyStore).
  - by vm_compute.
  - by vm_compute.
Defined.




(** The effects of a successful request of a returning user, in order:
    the file is looked up and read, the completion service is called once
    with the whole stored conversation followed by the new user turn, and
    the committed memory is written to the same file; nothing else. *)
Theorem returning_user_trace env req w userId prompt project p props items
  content :
  accepted req userId prompt project ->
  memoryFile userId = Some p ->
  files w !! p = Some (File (Json (JObj props))) ->
  lookupProp (js "conversation") props = Some (JArr items) ->
  complete env (items ++ [turn (js "user") prompt]) = Replied content ->
  canWrite w p = true ->
  requestLog env req w
  = [ ExistsSync p;
      ReadFileSync p;
      CreateCompletion (items ++ [turn (js "user") prompt]);
      WriteFileSync p
        (JObj (committed prompt project (finalText (random env) content)
                 items props)) ].
Proof.
  intros Hacc Hp Hfile Hconv Hc Hw.
  pose proof (load_json userId p w _ Hp (canWrite_valid _ _ Hw) Hfile)
    as Hload.
  pose proof (handler_accepted env _ _ _ _ w Hacc) as Hrun.
  erewrite catch_returned in Hrun; cycle 1.
  { by eapply (reply_replied env userId p). }
  cbv zeta in Hrun.
  rewrite (save_written userId p) in Hrun by done.
  eapply requestLog_run; [exact Hrun |].
  simpl. by rewrite <- !app_assoc.
Qed.

Lemma returning_user_trace_witness :
  requestLog (answering "Poa sana") (ask "u1" "Tena?") afterFirst
  = [ ExistsSync (js "/tmp/memory/memory_u1.json");
      ReadFileSync (js "/tmp/memory/memory_u1.json");
      CreateCompletion (firstTurns ++ [turn (js "user") (js "Tena?")]);
      WriteFileSync (js "/tmp/memory/memory_u1.json")
        (JObj (committed (js "Tena?") None
                 (finalText (3 # 10) (Some (js "Poa sana"))) firstTurns
                 [ (js "userId", JStr (js "u1"));
                   (js "lastProject", JNull);
                   (js "lastTask", JStr (js "Habari?"));
                   (js "conversation", JArr firstTurns) ])) ].
Proof.
  apply (returning_user_trace (answering "Poa sana") (ask "u1" "Tena?")
           afterFirst (JStr (js "u1")) (js "Tena?") None
           (js "/tmp/memory/memory_u1.json")).
  - apply accepted_ask; by vm_compute.
  - by vm_compute.
  - by vm_compute.
  - by vm_compute.
  - reflexivity.
  - by vm_compute.
Defined.




(** A userId that is an object with a property named [toString] cannot be
    turned into a file name: the request is answered 500 with the
    TypeError of the template literal, and nothing is looked up, read,
    written or sent to the completion service. *)
Theorem unprintable_userId env req w props prompt project :
  accepted req (JObj props) prompt project ->
  lookupProp (js "toString") props <> None ->
  handler env req w
  = (Returned
       (respond 500
          (Some (serverErrorJson
                   (js "Cannot convert object to primitive value")))),
     record (ConsoleError (js "Chat error:")
               (js "Cannot convert object to primitive value")) w).
Proof.
  intros Hacc Hts.
  rewrite (handler_accepted _ _ _ _ _ _ Hacc).
  erewrite catch_thrown; [apply serverError_run |].
  unfold reply, loadMemory, memoryPath, memoryFile. simpl.
  destruct (lookupProp (js "toString") props); [reflexivity | done].
Qed.

Lemma unprintable_userId_witness :
  handler (answering "Sawa")
    (post [ (js "prompt", JStr (js "hi"));
            (js "userId", JObj [(js "toString", JNum 1)]) ])
    emptyStore
  = (Returned
       (respond 500
          (Some (serverErrorJson
                   (js "Cannot convert object to primitive value")))),
     record (ConsoleError (js "Chat error:")
               (js "Cannot convert object to primitive value")) emptyStore).
Proof.
  apply (unprintable_userId (answering "Sawa") _ emptyStore
           [(js "toString", JNum 1)] (js "hi") None).
  - split; [reflexivity |]. eexists. split; [reflexivity |].
    repeat split; by vm_compute.
  - by vm_compute.
Defined.

(** What the caller gets is what is kept: after a request answered 200
    whose save was written, the text of the answer is the content of the
    last turn of the stored conversation, an assistant turn. *)
Theorem returned_text_is_stored env req w userId prompt project p memory
  items content :
  accepted req userId prompt project ->
  memoryFile userId = Some p ->
  (loadMemory userId w).1 = Returned memory ->
  getProp (js "conversation") memory = Some (JArr items) ->
  complete env (items ++ [turn (js "user") prompt]) = Replied content ->
  canWrite w p = true ->
  exists resp w' body saved turns text,
    handler env req w = (Returned resp, w')
    /\ payload resp = Some body
    /\ getProp (js "text") body = Some (JStr text)
    /\ stored w' p = Some saved
    /\ getProp (js "conversation") saved = Some (JArr turns)
    /\ last turns = Some (turn (js "assistant") text).
Proof.
  intros Hacc Hp Hload Hconv Hc Hw.
  destruct (handler_replied env req w userId prompt project p memory items
              content Hacc Hp Hload Hconv Hc)
    as (props & w' & -> & Hrun & Hyes & _).
  destruct (Hyes Hw) as [Hf _].
  do 6 eexists. split; [exact Hrun |]. split; [reflexivity |].
  split.
  { unfold replyJson, getProp. simpl. by rewrite streq_refl. }
  unfold stored. rewrite Hf, lookup_insert_eq. split; [reflexivity |].
  split; [apply committed_conversation |].
  change [turn (js "user") prompt;
          turn (js "assistant") (finalText (random env) content)]
    with ([turn (js "user") prompt]
          ++ [turn (js "assistant") (finalText (random env) content)]).
  by rewrite app_assoc, last_snoc.
Qed.

Lemma returned_text_is_stored_witness :
  exists resp w' body saved turns text,
    handler (answering "Poa sana") (ask "u1" "Tena?") afterFirst
    = (Returned resp, w')
    /\ payload resp = Some body
    /\ getProp (js "text") body = Some (JStr text)
    /\ stored w' (js "/tmp/memory/memory_u1.json") = Some saved
    /\ getProp (js "conversation") saved = Some (JArr turns)
    /\ last turns = Some (turn (js "assistant") text).
Proof.
  eapply (returned_text_is_stored (answering "Poa sana") (ask "u1" "Tena?")
            afterFirst (JStr (js "u1")) (js "Tena?") None
            (js "/tmp/memory/memory_u1.json") _ firstTurns
            (Some (js "Poa sana"))).
  - apply accepted_ask; by vm_compute.
  - by vm_compute.
  - vm_compute. reflexivity.
  - by vm_compute.
  - reflexivity.
  - by vm_compute.
Defined.

(** ** The invariant of the conversations *)

Lemma isTurn_turn role content : isTurn role (turn role content) = true.
Proof.
  unfold isTurn, turn, getProp. simpl.
  rewrite streq_refl. apply streq_refl.
Qed.

Lemma dialogue_app items prompt text :
  dialogue items = true ->
  dialogue (items ++ [turn (js "user") prompt; turn (js "assistant") text])
  = true.
Proof.
  revert items. fix IH 1. intros [| u [| a rest]]; simpl.
  - intros _. by rewrite !isTurn_turn.
  - discriminate.
  - intros H. apply andb_true_iff in H as [H Hrest].
    rewrite H. simpl. by apply IH.
Qed.

Lemma goodRecord_default userId : goodRecord (defaultMemory userId).
Proof. exists []. split; [by vm_compute | reflexivity]. Qed.

(** What [loadMemory] returns is the template or a stored record. *)
Lemma load_source userId w :
  match (loadMemory userId w).1 with
  | Returned memory =>
      memory = defaultMemory userId
      \/ exists p, files w !! p = Some (File (Json memory))
  | Thrown _ => True
  end.
Proof.
  unfold loadMemory, memoryPath.
  destruct (memoryFile userId) as [p |]; [| done]. run.
  destruct (validPath p); simpl; [| by left].
  destruct (files w !! p) as [[| [| v]] |] eqn:Hw; simpl; rewrite ?Hw;
    simpl; [by left | by left | right; eauto | by left].
Qed.

Lemma goodStore_step env req w :
  goodStore w -> goodStore (handler env req w).2.
Proof.
  intros Hgood.
  destruct (handler_cases env req w)
    as [(code & payload & Hcode & Hrun)
       | [(e & w1 & evs & Hrun & Hf & _)
         | (userId & prompt & project & p & props & items & content & w1
            & evs & _ & Hp & Hload & Hconv & _ & Hf & _ & _ & _ & _
            & Hrun)]].
  - by rewrite Hrun.
  - rewrite Hrun. intros q v. simpl. rewrite Hf. apply Hgood.
  - cbv zeta in Hrun.
    assert (Hmem : goodRecord (JObj props)).
    { pose proof (load_source userId w) as Hsrc. rewrite Hload in Hsrc.
      destruct Hsrc as [-> | [q Hq]];
        [apply goodRecord_default | by eapply Hgood]. }
    destruct Hmem as (rest & Hc & Hd). unfold getProp in Hc.
    assert (items = turn (js "system") SYSTEM_PROMPT :: rest) as ->
      by congruence.
    match type of Hrun with
    | context [saveMemory userId ?m ?w0] =>
        destruct (save_cases userId p m w0 Hp)
          as [[_ Hs] | (_ & what & err & Hs)]
    end; rewrite Hs in Hrun; rewrite Hrun; intros q v; simpl; rewrite Hf;
      [| apply Hgood].
    destruct (decide (p = q)) as [<- | Hne].
    + rewrite lookup_insert_eq. intros [= <-].
      exists (rest ++ [turn (js "user") prompt;
                       turn (js "assistant")
                         (finalText (random env) content)]).
      split; [| by apply dialogue_app].
      unfold getProp. by rewrite committed_conversation.
    + rewrite lookup_insert_ne by done. apply Hgood.
Qed.

Lemma goodStore_empty : goodStore emptyStore.
Proof.
  intros p v. unfold emptyStore. simpl.
  rewrite lookup_singleton. case_decide; [| done]. discriminate.
Qed.

(** The invariant of the conversations.  The empty store is good, every
    request keeps a good store good, whatever its outcome, and so every
    store reached from the empty one by any sequence of requests is good:
    each stored record has exactly one system turn, the template's, in
    first place, and after it user and assistant turns in pairs; the
    system turn is never duplicated, moved or dropped. *)
Theorem conversations_keep_their_shape :
  goodStore emptyStore
  /\ (forall env req w, goodStore w -> goodStore (handler env req w).2)
  /\ (forall requests, goodStore (serve requests emptyStore)).
Proof.
  split; [exact goodStore_empty |]. split; [exact goodStore_step |].
  intros requests. unfold serve.
  generalize goodStore_empty. generalize emptyStore as w.
  induction requests as [| [env req] requests IH]; intros w Hw; [done |].
  simpl. apply IH. by apply goodStore_step.
Qed.

(** ** Two requests of one user in flight *)

(** [reply] is the part before the [await], the call, and the part after
    it. *)
Lemma reply_split env userId prompt project w :
  reply env userId prompt project w
  = (memory ← replyBefore userId prompt project;
     content ← createCompletion env (conversationOf memory);
     replyAfter (random env) userId memory content) w.
Proof.
  unfold reply, replyBefore, replyAfter, mbind, M_bind.
  destruct (loadMemory userId w) as [[m0 | e] w0]; [| done].
  destruct ((if truthy project
             then setField (js "lastProject") (default JNull project) m0
             else mret m0) w0) as [[m1 | e] w1]; [| done].
  destruct (setField (js "lastTask") (JStr prompt) m1 w1)
    as [[m2 | e] w2]; [| done].
  by destruct (pushConversation (turn (js "user") prompt) m2 w2)
    as [[m3 | e] w3].
Qed.

Lemma replyBefore_run userId p prompt project w props items :
  memoryFile userId = Some p ->
  validPath p = true ->
  files w !! p = Some (File (Json (JObj props))) ->
  lookupProp (js "conversation") props = Some (JArr items) ->
  exists w1,
    replyBefore userId prompt project w
    = (Returned
         (JObj (assignProp (js "conversation")
                  (JArr (items ++ [turn (js "user") prompt]))
                  (assignProp (js "lastTask") (JStr prompt)
                     (if truthy project
                      then assignProp (js "lastProject")
                             (default JNull project) props
                      else props)))), w1)
    /\ files w1 = files w /\ permits w1 = permits w.
Proof.
  intros Hp Hv Hfile Hconv. unfold replyBefore.
  rewrite (bind_returned _ _ _ _ _ (load_json userId p w _ Hp Hv Hfile)).
  assert (Hctx := contextUpdate_conversation prompt project props).
  rewrite Hconv in Hctx.
  set (ctx := if truthy project
              then assignProp (js "lastProject") (default JNull project) props
              else props) in *.
  erewrite bind_returned; cycle 1.
  { instantiate (1 := record (ReadFileSync p) (record (ExistsSync p) w)).
    instantiate (1 := JObj ctx). subst ctx. by destruct (truthy project). }
  erewrite bind_returned; [| reflexivity].
  rewrite (push_run _ _ _ _ Hctx). by eexists.
Qed.

Lemma replyAfter_run random userId p props items content w :
  memoryFile userId = Some p ->
  lookupProp (js "conversation") props = Some (JArr items) ->
  canWrite w p = true ->
  let text := finalText random content in
  let memory :=
    JObj (assignProp (js "conversation")
            (JArr (items ++ [turn (js "assistant") text])) props) in
  replyAfter random userId (JObj props) content w
  = (Returned (respond 200 (Some (replyJson text memory))),
     mkWorld (<[p := File (Json memory)]> (files w)) (permits w)
       (events w ++ [WriteFileSync p memory])).
Proof.
  intros Hp Hconv Hw. cbv zeta. unfold replyAfter. cbv zeta.
  erewrite bind_returned; [| by apply push_run].
  erewrite bind_returned; [| by apply (save_written userId p)].
  reflexivity.
Qed.

(** The lost update.  When two requests of one user overlap as above on
    a stored record, both completions succeed and the file can be
    written, both requests are answered 200, each with its own text, but
    the record stored in the end holds the old turns and the turns of the
    second request only: the user and assistant turns of the first request,
    saved in between, are overwritten. *)
Theorem overlapping_requests_lose_turns env1 env2 userId p prompt1 prompt2
  project1 project2 w props items content1 content2 :
  memoryFile userId = Some p ->
  files w !! p = Some (File (Json (JObj props))) ->
  lookupProp (js "conversation") props = Some (JArr items) ->
  canWrite w p = true ->
  complete env1 (items ++ [turn (js "user") prompt1]) = Replied content1 ->
  complete env2 (items ++ [turn (js "user") prompt2]) = Replied content2 ->
  exists resp1 resp2 w' saved,
    overlapped env1 env2 userId prompt1 prompt2 project1 project2 w
    = (Returned (resp1, resp2), w')
    /\ status resp1 = 200 /\ status resp2 = 200
    /\ stored w' p = Some saved
    /\ getProp (js "conversation") saved
       = Some (JArr (items ++ [ turn (js "user") prompt2;
                                turn (js "assistant")
                                  (finalText (random env2) content2) ])).
Proof.
  intros Hp Hfile Hconv Hw Hc1 Hc2.
  pose proof (canWrite_valid _ _ Hw) as Hv.
  unfold overlapped.
  destruct (replyBefore_run userId p prompt1 project1 w props items
              Hp Hv Hfile Hconv) as (w1 & Hb1 & Hf1 & Hperm1).
  rewrite (bind_returned _ _ _ _ _ Hb1).
  erewrite bind_returned; [| reflexivity].
  destruct (replyBefore_run userId p prompt2 project2
              (record (CreateCompletion
                         (conversationOf
                            (JObj (assignProp (js "conversation")
                                     (JArr (items ++ [turn (js "user") prompt1]))
                                     (assignProp (js "lastTask") (JStr prompt1)
                                        (if truthy project1
                                         then assignProp (js "lastProject")
                                                (default JNull project1) props
                                         else props)))))) w1)
              props items Hp Hv) as (w2 & Hb2 & Hf2 & Hperm2);
    [simpl; by rewrite Hf1 | done |].
  rewrite (bind_returned _ _ _ _ _ Hb2).
  erewrite bind_returned; [| reflexivity].
  rewrite !conversationOf_assign, Hc1, Hc2.
  simpl in Hf2, Hperm2.
  set (w3 := record _ w2).
  assert (Hw3 : canWrite w3 p = true).
  { unfold canWrite in *. simpl. by rewrite Hf2, Hperm2, Hf1, Hperm1. }
  erewrite bind_returned; cycle 1.
  { apply (replyAfter_run _ userId p); [done | apply lookup_assign_eq | done]. }
  set (w4 := mkWorld _ _ _).
  assert (Hw4 : canWrite w4 p = true) by (by apply canWrite_again).
  erewrite bind_returned; cycle 1.
  { apply (replyAfter_run _ userId p); [done | apply lookup_assign_eq | done]. }
  do 4 eexists. split; [reflexivity |].
  split; [reflexivity |]. split; [reflexivity |].
  unfold stored. simpl. rewrite lookup_insert_eq.
  split; [reflexivity |].
  unfold getProp. rewrite lookup_assign_eq. by rewrite <- app_assoc.
Qed.

Lemma overlapping_requests_lose_turns_witness :
  exists resp1 resp2 w' saved,
    overlapped (answering "Moja") (answering "Mbili") (JStr (js "u1"))
      (js "Kwanza?") (js "Pili?") None None afterFirst
    = (Returned (resp1, resp2), w')
    /\ status resp1 = 200 /\ status resp2 = 200
    /\ stored w' (js "/tmp/memory/memory_u1.json") = Some saved
    /\ getProp (js "conversation") saved
       = Some (JArr (firstTurns
                     ++ [ turn (js "user") (js "Pili?");
                          turn (js "assistant")
                            (finalText (3 # 10) (Some (js "Mbili"))) ])).
Proof.
  eapply (overlapping_requests_lose_turns (answering "Moja")
            (answering "Mbili") (JStr (js "u1"))
            (js "/tmp/memory/memory_u1.json") (js "Kwanza?") (js "Pili?")
            None None afterFirst _ firstTurns (Some (js "Moja"))
            (Some (js "Mbili"))).
  - by vm_compute.
  - vm_compute. reflexivity.
  - by vm_compute.
  - by vm_compute.
  - reflexivity.
  - reflexivity.
Defined.

(** ** Cold start *)

Lemma parent_plain_name name :
  ~ In Path.SLASH name ->
  name <> [] -> name <> js "." -> name <> js ".." ->
  Path.parent (MEMORY_DIR ++ Path.SLASH :: name) = MEMORY_DIR.
Proof.
  intros Hplain Hne Hdot Hdots. unfold Path.parent.
  rewrite splitSlash_app, (splitSlash_plain [] _ Hplain).
  rewrite normalizeSegments_app.
  replace (Path.normalizeSegments false [] (Path.splitSlash [] MEMORY_DIR))
    with [js "tmp"; js "memory"] by (by vm_compute).
  change (rev [] ++ name) with name.
  rewrite (normalizeSegments_one _ _ _ Hne Hdot Hdots).
  change (rev (name :: rev [js "tmp"; js "memory"]))
    with ([js "tmp"; js "memory"] ++ [name]).
  rewrite removelast_last. by vm_compute.
Qed.

Lemma validPath_notin p : ~ In 0 p -> validPath p = true.
Proof.
  intros H. unfold validPath. apply negb_true_iff, not_true_is_false.
  intros Hex. apply existsb_exists in Hex as (c & Hin & Hc).
  apply N.eqb_eq in Hc. by subst c.
Qed.

(** The memory file of a user id without slash and without NUL, its
    directory and its validity. *)
Lemma plain_file userId_text :
  ~ In Path.SLASH userId_text -> ~ In 0 userId_text ->
  exists p,
    memoryFile (JStr userId_text) = Some p
    /\ Path.parent p = MEMORY_DIR
    /\ validPath p = true
    /\ p <> MEMORY_DIR.
Proof.
  intros Hs Hz. eexists. split; [by apply memoryFile_plain |].
  assert (Hname : ~ In Path.SLASH (js "memory_" ++ userId_text ++ js ".json")).
  { intros H. apply in_app_or in H as [H | H].
    - revert H. vm_compute. intuition discriminate.
    - apply in_app_or in H as [H | H]; [by apply Hs |].
      revert H. vm_compute. intuition discriminate. }
  split; [| split].
  - rewrite <- app_assoc.
    change ((Path.SLASH :: js "memory_") ++ userId_text ++ js ".json")
      with (Path.SLASH :: js "memory_" ++ userId_text ++ js ".json").
    apply parent_plain_name; [exact Hname | | |];
      replace (js "memory_") with (109 :: js "emory_") by (by vm_compute).
    + discriminate.
    + replace (js ".") with [46] by (by vm_compute). discriminate.
    + replace (js "..") with [46; 46] by (by vm_compute). discriminate.
  - apply validPath_notin. intros H.
    apply in_app_or in H as [H | H].
    + revert H. vm_compute. intuition discriminate.
    + apply in_app_or in H as [H | H]; [by apply Hz |].
      revert H. vm_compute. intuition discriminate.
  - intros H. rewrite <- (app_nil_r MEMORY_DIR) in H at 2.
    rewrite <- app_assoc in H. apply app_inv_head in H. discriminate.
Qed.

(** Cold start.  On a file system where [/tmp] is a directory without a
    [memory] entry and writes are permitted, the start-up creates the
    memory directory, and the first valid request of a user whose id has
    no slash and no NUL is answered 200 and its record is stored, at the
    path [/tmp/memory/memory_<userId>.json], with the three turns of a new
    conversation. *)
Theorem cold_start env req w id prompt project content :
  files w !! MEMORY_DIR = None ->
  files w !! js "/tmp" = Some Dir ->
  (forall q, permits w q = true) ->
  (forall q, Path.parent q = MEMORY_DIR -> files w !! q = None) ->
  accepted req (JStr id) prompt project ->
  ~ In Path.SLASH id -> ~ In 0 id ->
  complete env [turn (js "system") SYSTEM_PROMPT; turn (js "user") prompt]
  = Replied content ->
  exists w0 resp w' memory,
    ensureMemoryDir w = (Returned tt, w0)
    /\ files w0 = <[MEMORY_DIR := Dir]> (files w)
    /\ handler env req w0 = (Returned resp, w')
    /\ status resp = 200
    /\ stored w'
         ((MEMORY_DIR ++ Path.SLASH :: js "memory_") ++ id ++ js ".json")
       = Some memory
    /\ getProp (js "conversation") memory
       = Some (JArr [ turn (js "system") SYSTEM_PROMPT;
                      turn (js "user") prompt;
                      turn (js "assistant")
                        (finalText (random env) content) ]).
Proof.
  intros Hnone Htmp Hperm Hfresh Hacc Hs Hz Hc.
  destruct (plain_file id Hs Hz) as (p & Hp & Hparent & Hv & Hne).
  assert (p = (MEMORY_DIR ++ Path.SLASH :: js "memory_") ++ id ++ js ".json")
    as Ep by (rewrite (memoryFile_plain id Hs) in Hp; congruence).
  rewrite <- Ep.
  set (w0 := mkWorld (<[MEMORY_DIR := Dir]> (files w)) (permits w)
               (events w ++ [ExistsSync MEMORY_DIR])).
  assert (Hinit : ensureMemoryDir w = (Returned tt, w0)).
  { unfold ensureMemoryDir, mbind, M_bind, existsSync. rewrite Hnone.
    rewrite andb_false_r. unfold mkdirSync.
    replace (validPath MEMORY_DIR) with true by (by vm_compute).
    replace (Path.parent MEMORY_DIR) with (js "/tmp") by (by vm_compute).
    simpl. by rewrite Hperm, Htmp, Hnone. }
  assert (Hfile : files w0 !! p = None).
  { simpl. rewrite lookup_insert_ne by done. by apply Hfresh. }
  assert (Hw : canWrite w0 p = true).
  { unfold canWrite. rewrite Hv, Hparent, Hfile. simpl.
    by rewrite Hperm, lookup_insert_eq. }
  destruct (handler_replied env req w0 (JStr id) prompt project p
              (defaultMemory (JStr id)) [turn (js "system") SYSTEM_PROMPT]
              content Hacc Hp)
    as (props & w' & _ & Hrun & Hyes & _); [| reflexivity | exact Hc |].
  { apply load_default with (p := p); [exact Hp | by left]. }
  destruct (Hyes Hw) as [Hf _].
  exists w0. do 3 eexists.
  split; [exact Hinit |]. split; [reflexivity |].
  split; [exact Hrun |]. split; [reflexivity |].
  unfold stored. rewrite Hf, lookup_insert_eq.
  split; [reflexivity |]. apply committed_conversation.
Qed.

Lemma cold_start_witness :
  exists w0 resp w' memory,
    ensureMemoryDir bareDisk = (Returned tt, w0)
    /\ files w0 = <[MEMORY_DIR := Dir]> (files bareDisk)
    /\ handler (answering "Sawa") (ask "u1" "Habari?") w0
       = (Returned resp, w')
    /\ status resp = 200
    /\ stored w'
         ((MEMORY_DIR ++ Path.SLASH :: js "memory_") ++ js "u1"
          ++ js ".json")
       = Some memory
    /\ getProp (js "conversation") memory
       = Some (JArr [ turn (js "system") SYSTEM_PROMPT;
                      turn (js "user") (js "Habari?");
                      turn (js "assistant")
                        (finalText (3 # 10) (Some (js "Sawa"))) ]).
Proof.
  apply (cold_start (answering "Sawa") (ask "u1" "Habari?") bareDisk
           (js "u1") (js "Habari?") None (Some (js "Sawa"))).
  - by vm_compute.
  - by vm_compute.
  - reflexivity.
  - intros q Hq. unfold bareDisk. simpl.
    apply lookup_singleton_ne. intros <-. revert Hq. by vm_compute.
  - apply accepted_ask; by vm_compute.
  - vm_compute. intuition discriminate.
  - vm_compute. intuition discriminate.
  - reflexivity.
Defined.
